(** * SimpleActionServer: the single-goal policy of actionlib

    A shallow embedding of [actionlib/simple_action_server.py] and the
    properties of its goal admission, preemption and acceptance logic.

    The server runs in a state-and-exception monad: a Python method is a
    function from the state before the call to an outcome (a returned
    value or a raised exception) and the state after it.  The state after
    an exception is kept, as Python keeps it. *)

From Stdlib Require Import ZArith List String Bool Lia.
Import ListNotations.
Local Open Scope string_scope.
Local Open Scope Z_scope.
Local Open Scope list_scope.

(* ===================================================================== *)
(** ** Goal statuses, trackers and handles *)
(* ===================================================================== *)

(** Modelled from the spec: the [GoalStatus] constants of actionlib_msgs,
    which is not under src/.  The spec (section 3) lists the six statuses
    a goal of this component goes through. *)
Inductive GoalStatus : Type :=
| PENDING | ACTIVE | PREEMPTING | SUCCEEDED | ABORTED | PREEMPTED.

Definition status_eqb (a b : GoalStatus) : bool :=
  match a, b with
  | PENDING, PENDING | ACTIVE, ACTIVE | PREEMPTING, PREEMPTING
  | SUCCEEDED, SUCCEEDED | ABORTED, ABORTED | PREEMPTED, PREEMPTED => true
  | _, _ => false
  end.

(** The payload of an action goal, and of an action result.  A result is
    either the one [ActionResultType()] builds or one the user supplied. *)
Definition Goal : Type := nat.

Inductive Result : Type :=
| DefaultResult
| UserResult (payload : nat).

(** What the transport keeps for one submitted goal: the payload and the
    stamp of its GoalID (both fixed at submission), its status and the
    result last sent with a status change.  A tracker is shared by every
    handle of that goal. *)
Record StatusTracker : Type := mkTracker {
  goal : Goal;
  stamp : Z;
  status : GoalStatus;
  result : option Result
}.

(** The trackers of all goals, by the unique id of the goal. *)
Definition Trackers : Type := string -> StatusTracker.

(** Modelled from the spec: class [ServerGoalHandle]
    (actionlib/server_goal_handle.py), which is not under src/.  A handle
    holds a goal, named by its unique id, or is the null handle that
    [ServerGoalHandle()] builds ("no goal occupies this slot"). *)
Inductive ServerGoalHandle : Type :=
| NullHandle
| Handle (id : string).

Definition with_status (st : GoalStatus) (r : option Result) (t : StatusTracker)
  : StatusTracker :=
  mkTracker (goal t) (stamp t) st r.

Definition update (w : Trackers) (k : string) (t : StatusTracker) : Trackers :=
  fun k' => if String.eqb k' k then t else w k'.

Module handle.

(** Modelled from the spec: [ServerGoalHandle.get_goal], not under src/.
    The goal of the handle, [None] for the null handle.  A goal message
    is a truthy Python object, so [not h.get_goal()] holds exactly for
    the null handle. *)
Definition get_goal (w : Trackers) (h : ServerGoalHandle) : option Goal :=
  match h with
  | NullHandle => None
  | Handle k => Some (goal (w k))
  end.

(** Modelled from the spec: the status transitions
    [ServerGoalHandle.set_accepted], [set_canceled], [set_succeeded] and
    [set_aborted], not under src/.  Each one marks the goal of the handle
    with its status (section 4.1: "mark the submitted handle PREEMPTED";
    section 4.3: "Mark the newly promoted current ACTIVE"; section 4.5:
    "transitions current goal to SUCCEEDED", "to ABORTED") and records the
    result sent along.  On the null handle there is no goal to mark
    (section 7: a safe no-op).  Sections 4.5 and 7 add that a status call
    on a goal that is not ACTIVE or PREEMPTING is a logged no-op; that
    guard is not modelled, and the status calls are specified below for a
    goal in execution only. *)
Definition set_status (st : GoalStatus) (r : option Result)
           (w : Trackers) (h : ServerGoalHandle) : Trackers :=
  match h with
  | NullHandle => w
  | Handle k => update w k (with_status st r (w k))
  end.

Definition set_accepted := set_status ACTIVE None.
Definition set_canceled (r : option Result) := set_status PREEMPTED r.
Definition set_succeeded (r : option Result) := set_status SUCCEEDED r.
Definition set_aborted (r : option Result) := set_status ABORTED r.

(** Modelled from the spec: [ServerGoalHandle.__eq__] and [__ne__], not
    under src/.  Two handles are equal when they identify the same goal,
    by its unique id; the null handle identifies no goal (section 4.2:
    a token that "targets neither live slot"). *)
Definition eq (a b : ServerGoalHandle) : bool :=
  match a, b with
  | Handle x, Handle y => String.eqb x y
  | _, _ => false
  end.

Definition ne (a b : ServerGoalHandle) : bool := negb (eq a b).

End handle.

(** Python truthiness of an optional object. *)
Definition truthy {A : Type} (o : option A) : bool :=
  match o with Some _ => true | None => false end.

(* ===================================================================== *)
(** ** The server object and the state of the process *)
(* ===================================================================== *)

(** A user callback registered with the server is opaque.  What the server
    sees of a call is that it returns or raises; the server methods that a
    callback calls meanwhile are operations of their own (the goal and
    preempt callbacks run after the last assignment of the method that
    calls them). *)
Inductive Callback : Type := Returns | Raises.

(** The attributes of [SimpleActionServer] that hold data. *)
Record SimpleActionServer : Type := mkServer {
  new_goal : bool;
  preempt_request : bool;
  new_goal_preempt_request : bool;
  goal_callback : option Callback;
  preempt_callback : option Callback;
  need_to_terminate : bool;
  current_goal : ServerGoalHandle;
  next_goal : ServerGoalHandle
}.

(** What a run leaves behind for an observer: log lines, callback calls
    and the operations on the condition variable. *)
Inductive Event : Type :=
| LogDebug (msg : string)
| LogWarn (msg : string)
| LogErr (msg : string)
| CallPreemptCallback
| CallGoalCallback
| CallExecuteCallback (g : option Goal)
| PublishFeedback
| Notify
| Wait.

(** The state: the server object, the trackers it shares with the
    transport, how many times the running thread holds each of the two
    reentrant locks, and the events so far (oldest first). *)
Record State : Type := mkState {
  self : SimpleActionServer;
  trackers : Trackers;
  lock : nat;
  terminate_mutex : nat;
  trace : list Event
}.

Inductive Exn : Type :=
| UserError
| NameError (name : string)
| RuntimeError.

Inductive Outcome (A : Type) : Type :=
| Ret (a : A)
| Raise (e : Exn).
Arguments Ret {A} a.
Arguments Raise {A} e.

Definition M (A : Type) : Type := State -> Outcome A * State.

Definition ret {A : Type} (a : A) : M A := fun s => (Ret a, s).

Definition raise {A : Type} (e : Exn) : M A := fun s => (Raise e, s).

Definition bind {A B : Type} (c : M A) (k : A -> M B) : M B :=
  fun s =>
    match c s with
    | (Ret a, s1) => k a s1
    | (Raise e, s1) => (Raise e, s1)
    end.

Declare Scope server_scope.
Delimit Scope server_scope with server.
Notation "x <- c ;; k" := (bind c (fun x => k))
  (at level 61, c at next level, right associativity) : server_scope.
Notation "c ;; k" := (bind c (fun _ => k))
  (at level 61, right associativity) : server_scope.
Local Open Scope server_scope.

Definition get : M State := fun s => (Ret s, s).

Definition modify (f : State -> State) : M unit := fun s => (Ret tt, f s).

Definition when (b : bool) (c : M unit) : M unit := if b then c else ret tt.

Definition emit (e : Event) : M unit :=
  modify (fun s => mkState (self s) (trackers s) (lock s) (terminate_mutex s)
                           (trace s ++ [e])).

Definition set_self (f : SimpleActionServer -> SimpleActionServer) : M unit :=
  modify (fun s => mkState (f (self s)) (trackers s) (lock s) (terminate_mutex s)
                           (trace s)).

Definition set_trackers (f : Trackers -> Trackers) : M unit :=
  modify (fun s => mkState (self s) (f (trackers s)) (lock s) (terminate_mutex s)
                           (trace s)).

(** Assignments to the attributes of [self]. *)
Definition assign_new_goal (b : bool) (v : SimpleActionServer) :=
  mkServer b (preempt_request v) (new_goal_preempt_request v) (goal_callback v)
           (preempt_callback v) (need_to_terminate v) (current_goal v) (next_goal v).

Definition assign_preempt_request (b : bool) (v : SimpleActionServer) :=
  mkServer (new_goal v) b (new_goal_preempt_request v) (goal_callback v)
           (preempt_callback v) (need_to_terminate v) (current_goal v) (next_goal v).

Definition assign_new_goal_preempt_request (b : bool) (v : SimpleActionServer) :=
  mkServer (new_goal v) (preempt_request v) b (goal_callback v)
           (preempt_callback v) (need_to_terminate v) (current_goal v) (next_goal v).

Definition assign_goal_callback (cb : option Callback) (v : SimpleActionServer) :=
  mkServer (new_goal v) (preempt_request v) (new_goal_preempt_request v) cb
           (preempt_callback v) (need_to_terminate v) (current_goal v) (next_goal v).

Definition assign_preempt_callback (cb : option Callback) (v : SimpleActionServer) :=
  mkServer (new_goal v) (preempt_request v) (new_goal_preempt_request v)
           (goal_callback v) cb (need_to_terminate v) (current_goal v) (next_goal v).

Definition assign_current_goal (h : ServerGoalHandle) (v : SimpleActionServer) :=
  mkServer (new_goal v) (preempt_request v) (new_goal_preempt_request v)
           (goal_callback v) (preempt_callback v) (need_to_terminate v) h (next_goal v).

Definition assign_next_goal (h : ServerGoalHandle) (v : SimpleActionServer) :=
  mkServer (new_goal v) (preempt_request v) (new_goal_preempt_request v)
           (goal_callback v) (preempt_callback v) (need_to_terminate v)
           (current_goal v) h.

Definition assign_need_to_terminate (b : bool) (v : SimpleActionServer) :=
  mkServer (new_goal v) (preempt_request v) (new_goal_preempt_request v)
           (goal_callback v) (preempt_callback v) b
           (current_goal v) (next_goal v).

(** [threading.RLock]: the owner may acquire again; a release by a thread
    that does not hold the lock raises RuntimeError. *)
Definition acquire : M unit :=
  modify (fun s => mkState (self s) (trackers s) (S (lock s)) (terminate_mutex s)
                           (trace s)).

Definition release : M unit :=
  fun s =>
    match lock s with
    | O => (Raise RuntimeError, s)
    | S n => (Ret tt, mkState (self s) (trackers s) n (terminate_mutex s) (trace s))
    end.

(** [with self.lock: body]: the lock is released when the body returns
    and when it raises. *)
Definition with_lock {A : Type} (body : M A) : M A :=
  fun s =>
    match acquire s with
    | (Raise e, s0) => (Raise e, s0)
    | (Ret _, s0) =>
        let (o, s1) := body s0 in
        match release s1 with
        | (Ret _, s2) => (o, s2)
        | (Raise e, s2) => (Raise e, s2)
        end
    end.

Definition with_terminate_mutex {A : Type} (body : M A) : M A :=
  fun s =>
    let (o, s1) :=
      body (mkState (self s) (trackers s) (lock s) (S (terminate_mutex s)) (trace s)) in
    (o, mkState (self s1) (trackers s1) (lock s1) (Nat.pred (terminate_mutex s1))
                (trace s1)).

(** [try: body  except <clause>: handler].  When the body raises, Python
    evaluates the clause; an exception of that evaluation replaces the one
    being handled, otherwise the handler runs if the clause matches. *)
Definition try_except {A : Type} (body : M A) (clause : M (Exn -> bool))
           (handler : Exn -> M A) : M A :=
  fun s =>
    match body s with
    | (Ret a, s1) => (Ret a, s1)
    | (Raise x, s1) =>
        match clause s1 with
        | (Ret matches, s2) => if matches x then handler x s2 else (Raise x, s2)
        | (Raise y, s2) => (Raise y, s2)
        end
    end.

(** Reading a name that no assignment, import, parameter or builtin
    binds. *)
Definition unbound_name {A : Type} (name : string) : M A := raise (NameError name).

Definition call (ev : Event) (cb : Callback) : M unit :=
  emit ev ;;
  match cb with
  | Returns => ret tt
  | Raises => raise UserError
  end.

Definition call_if_registered (ev : Event) (cb : option Callback) : M unit :=
  match cb with
  | Some f => call ev f
  | None => ret tt
  end.

(** The lines the methods log. *)
Definition msg_new_goal : string :=
  "A new goal has been recieved by the single goal action server".

Definition msg_preempt : string :=
  "A preempt has been received by the SimpleActionServer".

Definition msg_preempt_current : string :=
  "Setting preempt_request bit for the current goal to TRUE and invoking callback".

Definition msg_preempt_next : string :=
  "Setting preempt request bit for the next goal to TRUE".

(* ===================================================================== *)
(** ** The methods of SimpleActionServer *)
(* ===================================================================== *)

(** [__init__], up to the start of the execute thread: both slots hold the
    null handle and the three flags are False.  [w] is the transport's
    table of trackers. *)
Definition init (w : Trackers) : State :=
  mkState (mkServer false false false None None false NullHandle NullHandle)
          w 0 0 [].

Definition is_live (st : GoalStatus) : bool :=
  status_eqb st ACTIVE || status_eqb st PREEMPTING.

(** [is_active] *)
Definition is_active : M bool :=
  s <- get ;;
  match current_goal (self s) with
  | NullHandle => ret false
  | Handle k =>
      let st := status (trackers s k) in
      ret (status_eqb st ACTIVE || status_eqb st PREEMPTING)
  end.

Definition is_new_goal_available : M bool :=
  s <- get ;; ret (new_goal (self s)).

Definition is_preempt_requested : M bool :=
  s <- get ;; ret (preempt_request (self s)).

Definition err_not_available : string :=
  "Attempting to accept the next goal when a new goal is not available".

(** [accept_new_goal], lines 123 to 125: a preempted message for the goal in
    pursuit, when there is one and it is not the goal about to be
    accepted. *)
Definition preempt_current_goal : M unit :=
  active <- is_active ;;
  s <- get ;;
  when (active
        && truthy (handle.get_goal (trackers s) (current_goal (self s)))
        && handle.ne (current_goal (self s)) (next_goal (self s)))
       (set_trackers (fun w => handle.set_canceled None w (current_goal (self s)))).

(** [accept_new_goal], lines 127 to 140: the next goal becomes the current
    one, takes over the preempt flag recorded for it and is set active. *)
Definition promote_next_goal : M (option Goal) :=
  emit (LogDebug "Accepting a new goal") ;;
  set_self (fun v => assign_current_goal (next_goal v) v) ;;
  set_self (assign_new_goal false) ;;
  set_self (fun v => assign_preempt_request (new_goal_preempt_request v) v) ;;
  set_self (assign_new_goal_preempt_request false) ;;
  s <- get ;;
  set_trackers (fun w => handle.set_accepted w (current_goal (self s))) ;;
  s <- get ;;
  ret (handle.get_goal (trackers s) (current_goal (self s))).

(** [accept_new_goal].  The first block returns from inside [with
    self.lock]; [unavailable] says that it did. *)
Definition accept_new_goal : M (option Goal) :=
  unavailable <- with_lock
    (s <- get ;;
     if negb (new_goal (self s))
        || negb (truthy (handle.get_goal (trackers s) (next_goal (self s))))
     then emit (LogErr err_not_available) ;; ret true
     else ret false) ;;
  if (unavailable : bool) then ret None
  else preempt_current_goal ;; promote_next_goal.

Definition get_default_result : Result := DefaultResult.

Definition or_default (r : option Result) : option Result :=
  match r with
  | Some x => Some x
  | None => Some get_default_result
  end.

(** [set_succeeded], [set_aborted], [set_preempted] *)
Definition set_succeeded (r : option Result) : M unit :=
  with_lock
    (s <- get ;;
     set_trackers (fun w => handle.set_succeeded (or_default r) w (current_goal (self s)))).

Definition set_aborted (r : option Result) : M unit :=
  with_lock
    (s <- get ;;
     set_trackers (fun w => handle.set_aborted (or_default r) w (current_goal (self s)))).

Definition set_preempted (r : option Result) : M unit :=
  let r' := or_default r in
  with_lock
    (emit (LogDebug "Setting the current goal as canceled") ;;
     s <- get ;;
     set_trackers (fun w => handle.set_canceled r' w (current_goal (self s)))).

Definition publish_feedback : M unit := emit PublishFeedback.

Definition register_preempt_callback (cb : Callback) : M unit :=
  set_self (assign_preempt_callback (Some cb)).

(** The test of [internal_goal_callback] on one slot:
    [not slot.get_goal() or goal.get_goal_id().stamp > slot.get_goal_id().stamp]. *)
Definition newer_than (w : Trackers) (goal_stamp : Z) (slot : ServerGoalHandle) : bool :=
  match slot with
  | NullHandle => true
  | Handle k => goal_stamp >? stamp (w k)
  end.

(** [internal_goal_callback].  The transport passes the handle of the goal
    it received; [goal] is the id of that goal.  The handler of the [try]
    is written [except e:], and the module binds no name [e]: it imports
    roslib, rospy, threading, the message classes of actionlib_msgs,
    ActionServer and ServerGoalHandle, and defines nop_cb and
    SimpleActionServer. *)
Definition internal_goal_callback (goal : string) : M unit :=
  acquire ;;
  try_except
    (emit (LogDebug msg_new_goal) ;;
     s <- get ;;
     let w := trackers s in
     let cur := current_goal (self s) in
     let nxt := next_goal (self s) in
     if newer_than w (stamp (w goal)) cur && newer_than w (stamp (w goal)) nxt
     then
       when (truthy (handle.get_goal w nxt)
             && (negb (truthy (handle.get_goal w cur)) || handle.ne nxt cur))
            (set_trackers (fun w => handle.set_canceled None w nxt)) ;;
       set_self (assign_next_goal (Handle goal)) ;;
       set_self (assign_new_goal true) ;;
       set_self (assign_new_goal_preempt_request false) ;;
       active <- is_active ;;
       when active
            (set_self (assign_preempt_request true) ;;
             s <- get ;;
             call_if_registered CallPreemptCallback (preempt_callback (self s))) ;;
       s <- get ;;
       call_if_registered CallGoalCallback (goal_callback (self s)) ;;
       emit Notify ;;
       release
     else
       set_trackers (fun w => handle.set_canceled None w (Handle goal)) ;;
       release)
    (unbound_name "e")
    (fun _ =>
       emit (LogErr "SimpleActionServer.internal_goal_callback - exception") ;;
       release).

(** [internal_preempt_callback] *)
Definition internal_preempt_callback (preempt : ServerGoalHandle) : M unit :=
  with_lock
    (emit (LogDebug msg_preempt) ;;
     s <- get ;;
     if handle.eq preempt (current_goal (self s)) then
       emit (LogDebug msg_preempt_current) ;;
       set_self (assign_preempt_request true) ;;
       s <- get ;;
       call_if_registered CallPreemptCallback (preempt_callback (self s))
     else if handle.eq preempt (next_goal (self s)) then
       emit (LogDebug msg_preempt_next) ;;
       set_self (assign_new_goal_preempt_request true)
     else ret tt).

(** The state after an operation, whether it returned or raised. *)
Definition exec {A : Type} (c : M A) (s : State) : State := snd (c s).

(** How one turn of the [while] loop of [executeLoop] ends. *)
Inductive LoopControl : Type := Continue | Break | Return.

(** The operations on a server after its construction. *)
Inductive Op : Type :=
| OpGoal (goal : string)
| OpPreempt (preempt : ServerGoalHandle)
| OpAccept
| OpSetSucceeded (r : option Result)
| OpSetAborted (r : option Result)
| OpSetPreempted (r : option Result)
| OpPublishFeedback
| OpRegisterGoalCallback (cb : Callback)
| OpRegisterPreemptCallback (cb : Callback).

Section ExecuteThread.

(** The [execute_cb] given to [__init__], if any.  It is never assigned
    again.  The routine runs outside the lock and calls back into the
    server, so it is any computation on the state. *)
Variable execute_callback : option (option Goal -> M unit).

(** [register_goal_callback] *)
Definition register_goal_callback (cb : Callback) : M unit :=
  match execute_callback with
  | Some _ =>
      emit (LogWarn "Cannot call SimpleActionServer.register_goal_callback() because an executeCallback exists. Not going to register it.")
  | None => set_self (assign_goal_callback (Some cb))
  end.

Definition warn_not_terminal : string :=
  "Your executeCallback did not set the goal to a terminal status. This is a bug in your ActionServer implementation. Fix your code! For now, the ActionServer will set this goal to aborted".

(** The part of the loop body after the execute callback. *)
Definition executeLoop_finish : M LoopControl :=
  acquire ;;
  active <- is_active ;;
  when active (emit (LogWarn warn_not_terminal) ;; set_aborted None) ;;
  emit Wait ;;
  release ;;
  ret Continue.

(** The block under [with self.lock] of the loop body: [inl tt] when it
    returns from [executeLoop], otherwise [inr shall_run], where
    [shall_run] carries the value of [goal] when it is True. *)
Definition executeLoop_select : M (unit + option (option Goal)) :=
  with_lock
    (active <- is_active ;;
     if (active : bool) then
       emit (LogErr "Should never reach this code with an active goal") ;;
       ret (inl tt)
     else
       available <- is_new_goal_available ;;
       if (available : bool) then
         goal <- accept_new_goal ;;
         match execute_callback with
         | None =>
             emit (LogErr "execute_callback_ must exist. This is a bug in SimpleActionServer") ;;
             ret (inl tt)
         | Some _ => ret (inr (Some goal))
         end
       else ret (inr None)).

(** The body of the [while] loop of [executeLoop]. *)
Definition executeLoop_body : M LoopControl :=
  emit (LogDebug "SAS: execute") ;;
  terminate <- with_terminate_mutex (s <- get ;; ret (need_to_terminate (self s))) ;;
  if (terminate : bool) then ret Break
  else
    selected <- executeLoop_select ;;
    match selected with
    | inl _ => ret Return
    | inr shall_run =>
        match shall_run, execute_callback with
        | Some goal, Some cb => emit (CallExecuteCallback goal) ;; cb goal
        | _, _ => ret tt
        end ;;
        executeLoop_finish
    end.

Definition run_op (op : Op) : M unit :=
  match op with
  | OpGoal goal => internal_goal_callback goal
  | OpPreempt preempt => internal_preempt_callback preempt
  | OpAccept => accept_new_goal ;; ret tt
  | OpSetSucceeded r => set_succeeded r
  | OpSetAborted r => set_aborted r
  | OpSetPreempted r => set_preempted r
  | OpPublishFeedback => publish_feedback
  | OpRegisterGoalCallback cb => register_goal_callback cb
  | OpRegisterPreemptCallback cb => register_preempt_callback cb
  end.

Definition run (ops : list Op) (s : State) : State :=
  fold_left (fun s op => exec (run_op op) s) ops s.

(** [__del__], up to the join of the execute thread: with an execute
    callback, the request to terminate is written under its mutex. *)
Definition __del__ : M unit :=
  match execute_callback with
  | Some _ => with_terminate_mutex (set_self (assign_need_to_terminate true))
  | None => ret tt
  end.

(** How [executeLoop] ends: [rospy.is_shutdown()] answered True, the
    request to terminate was seen ([break]), or the method returned after
    logging an error.  [StillRunning] stands for a loop that is observed
    no further. *)
Inductive LoopEnd : Type := Shutdown | Terminated | Faulted | StillRunning.

(** [executeLoop].  [is_shutdown] lists the answers of
    [rospy.is_shutdown()] at the successive tests of the [while]
    condition, as far as the loop is observed. *)
Fixpoint executeLoop (is_shutdown : list bool) : M LoopEnd :=
  match is_shutdown with
  | [] => ret StillRunning
  | true :: _ => ret Shutdown
  | false :: later =>
      control <- executeLoop_body ;;
      match control with
      | Continue => executeLoop later
      | Break => ret Terminated
      | Return => ret Faulted
      end
  end.

End ExecuteThread.

(* ===================================================================== *)
(** ** What the properties speak of *)
(* ===================================================================== *)

Definition live_goal (s : State) (k : string) : Prop :=
  is_live (status (trackers s k)) = true.




(** The value [is_active] returns in a state. *)
Definition active (s : State) : bool :=
  match current_goal (self s) with
  | NullHandle => false
  | Handle k => is_live (status (trackers s k))
  end.

(** The events of a run from [s] to [s']. *)
Definition emitted (s s' : State) : list Event :=
  skipn (List.length (trace s)) (trace s').

Definition log_line (s : State) (e : Event) : State :=
  mkState (self s) (trackers s) (lock s) (terminate_mutex s) (trace s ++ [e]).

Definition raises (cb : option Callback) : bool :=
  match cb with Some Raises => true | _ => false end.

Definition calls (ev : Event) (cb : option Callback) : list Event :=
  match cb with Some _ => [ev] | None => [] end.

(** The test of line 249: the next slot holds a goal that is not the
    current one. *)
Definition bumped (s : State) : bool :=
  truthy (handle.get_goal (trackers s) (next_goal (self s)))
  && (negb (truthy (handle.get_goal (trackers s) (current_goal (self s))))
      || handle.ne (next_goal (self s)) (current_goal (self s))).

(** The test of lines 246 and 247. *)
Definition newer_than_both (s : State) (goal : string) : bool :=
  newer_than (trackers s) (stamp (trackers s goal)) (current_goal (self s))
  && newer_than (trackers s) (stamp (trackers s goal)) (next_goal (self s)).

Definition mark (st : GoalStatus) (r : option Result) (s : State) : State :=
  mkState (self s) (handle.set_status st r (trackers s) (current_goal (self s)))
          (lock s) (terminate_mutex s) (trace s).


(** The state after a status call on current goal [k]: that goal has the
    status and the result, nothing else has changed but the trace. *)
Definition marked (st : GoalStatus) (r : Result) (k : string) (s s' : State)
  : Prop :=
  status (trackers s' k) = st /\
  result (trackers s' k) = Some r /\
  (forall k', k' <> k -> trackers s' k' = trackers s k') /\
  self s' = self s /\
  lock s' = lock s.

(** The two slots in step with [new_goal]: while it is False both slots
    hold the same handle; while it is True the next slot holds a goal with
    a later stamp than the goal in the current slot. *)
Definition slots_in_step (s : State) : Prop :=
  (new_goal (self s) = false -> current_goal (self s) = next_goal (self s)) /\
  (new_goal (self s) = true ->
   exists n, next_goal (self s) = Handle n /\
             forall c, current_goal (self s) = Handle c ->
                       stamp (trackers s c) < stamp (trackers s n)).

(** No goal changes its payload or its stamp from [s] to [s']. *)
Definition same_goals (s s' : State) : Prop :=
  forall k, goal (trackers s' k) = goal (trackers s k) /\
            stamp (trackers s' k) = stamp (trackers s k).



(* ===================================================================== *)
(** ** A transport with four goals *)
(* ===================================================================== *)

(** Goals A (stamp 1), B (stamp 2), C (stamp 0) and D (stamp 3), all
    pending; every other id stands for a pending goal of stamp 0. *)
Definition four_goals : Trackers :=
  fun k =>
    if String.eqb k "A" then mkTracker 10%nat 1 PENDING None
    else if String.eqb k "B" then mkTracker 20%nat 2 PENDING None
    else if String.eqb k "D" then mkTracker 40%nat 3 PENDING None
    else mkTracker 0%nat 0 PENDING None.

(** Two clients that sent the same goal message: goals A (stamp 1) and B
    (stamp 2) carry the same payload. *)
Definition twin_goals : Trackers :=
  fun k =>
    if String.eqb k "A" then mkTracker 10%nat 1 PENDING None
    else if String.eqb k "B" then mkTracker 10%nat 2 PENDING None
    else mkTracker 0%nat 0 PENDING None.

(** A has been admitted and waits for the execute thread. *)
Definition A_submitted : State :=
  exec (internal_goal_callback "A") (init four_goals).

(** A is being executed. *)
Definition A_active : State :=
  exec accept_new_goal (exec (internal_goal_callback "A") (init four_goals)).

(** A is being executed and B waits in the next slot. *)
Definition A_active_B_next : State :=
  exec (internal_goal_callback "B") A_active.

(** A is being executed for a user whose preempt callback raises. *)
Definition A_active_preempt_callback_raises : State :=
  exec (register_preempt_callback Raises) A_active.

(** An execute routine that returns without a word, and one that reports
    success. *)
Definition idle_execute_cb : option Goal -> M unit := fun _ => ret tt.


(** An execute routine that raises. *)
Definition failing_execute_cb : option Goal -> M unit :=
  fun _ => raise UserError.


Ltac destruct_state s :=
  destruct s as [[ng pr ngpr gcb pcb ntt cur nxt] w l tm tr].

Ltac unfold_monad :=
  cbv [bind ret raise get modify when emit set_self set_trackers acquire release
       with_lock with_terminate_mutex try_except call call_if_registered
       unbound_name is_active is_new_goal_available is_preempt_requested exec].

(* ===================================================================== *)
(** ** Trackers and handles *)
(* ===================================================================== *)

Lemma update_same w k t : update w k t k = t.
Proof. unfold update. now rewrite String.eqb_refl. Qed.

Lemma update_other w k t k' : k' <> k -> update w k t k' = w k'.
Proof.
  intros Hne. unfold update.
  destruct (String.eqb_spec k' k) as [E | _]; [contradiction | reflexivity].
Qed.

Lemma handle_eq_true a b : handle.eq a b = true <-> exists k, a = Handle k /\ b = Handle k.
Proof.
  destruct a as [|x], b as [|y]; cbn; split;
    try discriminate; try (intros (k & E1 & E2); discriminate).
  - intros E. apply String.eqb_eq in E. subst. now exists y.
  - intros (k & E1 & E2). injection E1 as ->. injection E2 as ->.
    apply String.eqb_refl.
Qed.

Lemma handle_ne_goals x y : handle.ne (Handle x) (Handle y) = true <-> x <> y.
Proof.
  unfold handle.ne. cbn. destruct (String.eqb_spec x y); cbn; split;
    congruence.
Qed.

Lemma is_live_cases st : is_live st = true <-> st = ACTIVE \/ st = PREEMPTING.
Proof.
  destruct st; cbn; split; intros H; try discriminate; auto;
    destruct H; discriminate.
Qed.


(* ===================================================================== *)
(** ** The methods in closed form *)
(* ===================================================================== *)

Lemma is_active_eq s : is_active s = (Ret (active s), s).
Proof.
  destruct_state s. unfold active. unfold_monad. cbn.
  now destruct cur.
Qed.

Lemma preempt_current_goal_eq s :
  preempt_current_goal s =
  (Ret tt,
   mkState (self s)
           (if active s && handle.ne (current_goal (self s)) (next_goal (self s))
            then handle.set_canceled None (trackers s) (current_goal (self s))
            else trackers s)
           (lock s) (terminate_mutex s) (trace s)).
Proof.
  destruct_state s. unfold preempt_current_goal, active. unfold_monad. cbn.
  destruct cur as [|c]; cbn; [reflexivity|].
  rewrite andb_true_r. fold (is_live (status (w c))).
  now destruct (is_live (status (w c)) && handle.ne (Handle c) nxt).
Qed.

Lemma promote_next_goal_eq s :
  promote_next_goal s =
  (Ret (handle.get_goal (handle.set_accepted (trackers s) (next_goal (self s)))
                        (next_goal (self s))),
   mkState (mkServer false (new_goal_preempt_request (self s)) false
                     (goal_callback (self s)) (preempt_callback (self s))
                     (need_to_terminate (self s))
                     (next_goal (self s)) (next_goal (self s)))
           (handle.set_accepted (trackers s) (next_goal (self s)))
           (lock s) (terminate_mutex s)
           (trace s ++ [LogDebug "Accepting a new goal"])).
Proof. destruct_state s. reflexivity. Qed.

Lemma accept_new_goal_available s n :
  new_goal (self s) = true -> next_goal (self s) = Handle n ->
  accept_new_goal s = promote_next_goal (exec preempt_current_goal s).
Proof.
  intros Hng Hnxt. rewrite promote_next_goal_eq.
  unfold exec. rewrite preempt_current_goal_eq.
  destruct_state s. cbn in *. subst ng nxt.
  unfold accept_new_goal, preempt_current_goal. unfold_monad. cbn.
  destruct cur as [|c]; cbn; [reflexivity|].
  rewrite andb_true_r. fold (is_live (status (w c))).
  now destruct (is_live (status (w c)) && handle.ne (Handle c) (Handle n)).
Qed.

Lemma emitted_app s s' evs : trace s' = trace s ++ evs -> emitted s s' = evs.
Proof.
  unfold emitted. intros ->.
  rewrite skipn_app, Nat.sub_diag, skipn_all. reflexivity.
Qed.

(* ===================================================================== *)
(** ** is_active *)
(* ===================================================================== *)

(** C10.  [is_active] returns False, and raises nothing, when the current
    slot holds the null handle; when it holds a goal, [is_active] returns
    True exactly when the status of that goal is ACTIVE or PREEMPTING.  It
    never changes the state. *)
Theorem C10_is_active (s : State) :
  (current_goal (self s) = NullHandle -> is_active s = (Ret false, s)) /\
  (forall k, current_goal (self s) = Handle k ->
     exists b, is_active s = (Ret b, s) /\
       (b = true <->
        status (trackers s k) = ACTIVE \/ status (trackers s k) = PREEMPTING)).
Proof.
  rewrite is_active_eq. unfold active. split.
  - now intros ->.
  - intros k ->. eexists. split; [reflexivity|]. apply is_live_cases.
Qed.

Lemma C10_is_active_witness :
  (current_goal (self (init four_goals)) = NullHandle /\
   is_active (init four_goals) = (Ret false, init four_goals)) /\
  (current_goal (self A_active) = Handle "A" /\
   exists b, is_active A_active = (Ret b, A_active) /\
     (b = true <->
      status (trackers A_active "A") = ACTIVE \/
      status (trackers A_active "A") = PREEMPTING)).
Proof.
  split.
  - split; [reflexivity|].
    apply (proj1 (C10_is_active (init four_goals))). reflexivity.
  - split; [reflexivity|].
    apply (proj2 (C10_is_active A_active) "A"). reflexivity.
Defined.

(* ===================================================================== *)
(** ** accept_new_goal *)
(* ===================================================================== *)

(** C8.  Called while [new_goal] is False or while the next slot holds no
    goal, [accept_new_goal] logs an error and returns None; the server
    object (both slots and the three flags with it), the trackers and the
    lock are as before. *)
Theorem C8_accept_without_new_goal (s : State) :
  new_goal (self s) = false \/
  handle.get_goal (trackers s) (next_goal (self s)) = None ->
  let s' := exec accept_new_goal s in
  fst (accept_new_goal s) = Ret None /\
  emitted s s' = [LogErr err_not_available] /\
  current_goal (self s') = current_goal (self s) /\
  next_goal (self s') = next_goal (self s) /\
  new_goal (self s') = new_goal (self s) /\
  preempt_request (self s') = preempt_request (self s) /\
  new_goal_preempt_request (self s') = new_goal_preempt_request (self s) /\
  trackers s' = trackers s /\
  lock s' = lock s.
Proof.
  intros H.
  assert (E : accept_new_goal s = (Ret None, log_line s (LogErr err_not_available))).
  { destruct_state s. cbn in H. unfold accept_new_goal. unfold_monad. cbn.
    destruct H as [-> | H]; [reflexivity|].
    destruct nxt; [|discriminate]. cbn. now rewrite orb_true_r. }
  cbv zeta. unfold exec. rewrite E. cbn.
  repeat split; trivial. now apply emitted_app.
Qed.

Lemma C8_accept_without_new_goal_witness :
  (new_goal (self A_active) = false \/
   handle.get_goal (trackers A_active) (next_goal (self A_active)) = None) /\
  fst (accept_new_goal A_active) = Ret None /\
  current_goal (self (exec accept_new_goal A_active)) = Handle "A".
Proof.
  assert (H : new_goal (self A_active) = false \/
              handle.get_goal (trackers A_active) (next_goal (self A_active)) = None)
    by (left; reflexivity).
  split; [exact H|].
  destruct (C8_accept_without_new_goal A_active H) as (R & _ & C & _).
  split; [exact R|]. rewrite C. reflexivity.
Defined.

Lemma accept_new_goal_promotes (s : State) (n : string) :
  new_goal (self s) = true ->
  next_goal (self s) = Handle n ->
  let s' := exec accept_new_goal s in
  (forall c, current_goal (self s) = Handle c -> live_goal s c -> c <> n ->
     status (trackers s' c) = PREEMPTED) /\
  (forall k, k <> n -> ~ (current_goal (self s) = Handle k /\ live_goal s k) ->
     trackers s' k = trackers s k) /\
  current_goal (self s') = next_goal (self s) /\
  new_goal (self s') = false /\
  preempt_request (self s') = new_goal_preempt_request (self s) /\
  new_goal_preempt_request (self s') = false /\
  status (trackers s' n) = ACTIVE /\
  fst (accept_new_goal s) =
    Ret (handle.get_goal (trackers s') (current_goal (self s'))) /\
  fst (accept_new_goal s) = Ret (Some (goal (trackers s n))).
Proof.
  intros Hng Hnxt. cbv zeta. unfold exec.
  rewrite (accept_new_goal_available s n Hng Hnxt), promote_next_goal_eq.
  unfold exec. rewrite preempt_current_goal_eq. cbn.
  unfold live_goal, active. rewrite Hnxt. cbn.
  repeat split.
  - intros c Hc Hlive Hne. rewrite Hc, Hlive. cbn.
    rewrite (proj2 (handle_ne_goals c n) Hne). cbn.
    rewrite update_other by exact Hne. now rewrite update_same.
  - intros k Hk Hnot. rewrite update_other by exact Hk.
    destruct (current_goal (self s)) as [|c]; cbn; [reflexivity|].
    destruct (is_live (status (trackers s c))) eqn:Hlive; cbn; [|reflexivity].
    destruct (handle.ne (Handle c) (Handle n)); cbn; [|reflexivity].
    apply update_other. intros ->. apply Hnot. now split.
  - now rewrite update_same.
  - rewrite update_same. cbn. do 2 f_equal.
    destruct (current_goal (self s)) as [|c]; cbn; [reflexivity|].
    destruct (is_live (status (trackers s c)) && handle.ne (Handle c) (Handle n)) eqn:E;
      [|reflexivity].
    apply andb_prop in E. destruct E as [_ E]. apply handle_ne_goals in E.
    cbn. now rewrite update_other by congruence.
Qed.

(** C3.  Called while [new_goal] is True and the next slot holds goal [n],
    [accept_new_goal] cancels the current goal (PREEMPTED) if it is active
    and is not [n], and touches no other goal but [n]; the next goal
    becomes the current one; [new_goal] is cleared; [preempt_request]
    takes the value of [new_goal_preempt_request], which is cleared; the
    promoted goal is ACTIVE; and the call returns the goal held by the
    promoted handle ([current_goal.get_goal()]), not the handle. *)
Theorem C3_accept_promotes_next_goal (s : State) (n : string) :
  new_goal (self s) = true ->
  next_goal (self s) = Handle n ->
  let s' := exec accept_new_goal s in
  (forall c, current_goal (self s) = Handle c -> live_goal s c -> c <> n ->
     status (trackers s' c) = PREEMPTED) /\
  (forall k, k <> n -> ~ (current_goal (self s) = Handle k /\ live_goal s k) ->
     trackers s' k = trackers s k) /\
  current_goal (self s') = next_goal (self s) /\
  new_goal (self s') = false /\
  preempt_request (self s') = new_goal_preempt_request (self s) /\
  new_goal_preempt_request (self s') = false /\
  status (trackers s' n) = ACTIVE /\
  fst (accept_new_goal s) =
    Ret (handle.get_goal (trackers s') (current_goal (self s'))) /\
  fst (accept_new_goal s) = Ret (Some (goal (trackers s n))).
Proof. exact (accept_new_goal_promotes s n). Qed.

Lemma C3_accept_promotes_next_goal_witness :
  new_goal (self A_active_B_next) = true /\
  next_goal (self A_active_B_next) = Handle "B" /\
  live_goal A_active_B_next "A" /\
  status (trackers (exec accept_new_goal A_active_B_next) "A") = PREEMPTED /\
  status (trackers (exec accept_new_goal A_active_B_next) "B") = ACTIVE /\
  fst (accept_new_goal A_active_B_next) = Ret (Some 20%nat).
Proof.
  assert (Hng : new_goal (self A_active_B_next) = true) by reflexivity.
  assert (Hnxt : next_goal (self A_active_B_next) = Handle "B") by reflexivity.
  assert (Hlive : live_goal A_active_B_next "A") by reflexivity.
  destruct (C3_accept_promotes_next_goal A_active_B_next "B" Hng Hnxt)
    as (Hc & _ & _ & _ & _ & _ & Hn & _ & Hr).
  split; [exact Hng|]. split; [exact Hnxt|]. split; [exact Hlive|].
  split; [|split; [exact Hn | exact Hr]].
  apply (Hc "A"); [reflexivity | exact Hlive | discriminate].
Defined.

(** C3, as it was stated, fails: the value [accept_new_goal] returns is
    not the promoted handle.  With goals A and B that carry the same goal
    message, the acceptance of A and the acceptance of B promote two
    handles that are not equal and return the same value, so the caller
    cannot tell from it which handle was promoted. *)
Lemma C3_returned_value_is_not_the_handle :
  let sA := exec (internal_goal_callback "A") (init twin_goals) in
  let sB := exec (internal_goal_callback "B") (init twin_goals) in
  (new_goal (self sA) = true /\ next_goal (self sA) = Handle "A") /\
  (new_goal (self sB) = true /\ next_goal (self sB) = Handle "B") /\
  current_goal (self (exec accept_new_goal sA)) = Handle "A" /\
  current_goal (self (exec accept_new_goal sB)) = Handle "B" /\
  handle.eq (current_goal (self (exec accept_new_goal sA)))
            (current_goal (self (exec accept_new_goal sB))) = false /\
  fst (accept_new_goal sA) = Ret (Some 10%nat) /\
  fst (accept_new_goal sB) = Ret (Some 10%nat).
Proof. cbv zeta. repeat split. Qed.

(* ===================================================================== *)
(** ** internal_goal_callback in closed form *)
(* ===================================================================== *)

Lemma internal_goal_callback_rejected s goal :
  newer_than_both s goal = false ->
  internal_goal_callback goal s =
  (Ret tt,
   mkState (self s) (handle.set_canceled None (trackers s) (Handle goal))
           (lock s) (terminate_mutex s) (trace s ++ [LogDebug msg_new_goal])).
Proof.
  unfold newer_than_both. destruct_state s. cbn. intros H.
  unfold internal_goal_callback. unfold_monad. cbn. rewrite H. reflexivity.
Qed.

Lemma internal_goal_callback_admitted s goal :
  newer_than_both s goal = true ->
  let pcb := preempt_callback (self s) in
  let gcb := goal_callback (self s) in
  let stopped := active s && raises pcb in
  let failed := stopped || raises gcb in
  internal_goal_callback goal s =
  ((if failed then Raise (NameError "e") else Ret tt),
   mkState
     (mkServer true (active s || preempt_request (self s)) false gcb pcb
               (need_to_terminate (self s)) (current_goal (self s)) (Handle goal))
     (if bumped s
      then handle.set_canceled None (trackers s) (next_goal (self s))
      else trackers s)
     (if failed then S (lock s) else lock s)
     (terminate_mutex s)
     (trace s ++
      LogDebug msg_new_goal ::
      (if active s then calls CallPreemptCallback pcb else []) ++
      (if stopped then []
       else calls CallGoalCallback gcb ++ (if raises gcb then [] else [Notify])))).
Proof.
  unfold newer_than_both, bumped, active. destruct_state s. cbn. intros H.
  unfold internal_goal_callback. unfold_monad. cbn. rewrite H. cbn.
  destruct cur as [|c], nxt as [|n]; cbn.
  4: unfold handle.ne; cbn;
       destruct (String.eqb_spec n c) as [-> | Hne]; cbn;
       [| rewrite (update_other w n _ c) by congruence].
  3-5: fold (is_live (status (w c))); destruct (is_live (status (w c))); cbn.
  all: destruct pcb as [[|]|], gcb as [[|]|]; cbn.
  all: repeat rewrite <- app_assoc; reflexivity.
Qed.

Lemma active_true_iff s :
  active s = true <->
  exists c, current_goal (self s) = Handle c /\
            (status (trackers s c) = ACTIVE \/ status (trackers s c) = PREEMPTING).
Proof.
  unfold active. destruct (current_goal (self s)) as [|c]; split.
  - discriminate.
  - intros (c & E & _). discriminate.
  - intros H. exists c. split; [reflexivity | now apply is_live_cases].
  - intros (c' & E & H). injection E as <-. now apply is_live_cases.
Qed.

Lemma newer_than_both_true s goal :
  newer_than_both s goal = true <->
  (forall c, current_goal (self s) = Handle c ->
             stamp (trackers s c) < stamp (trackers s goal)) /\
  (forall n, next_goal (self s) = Handle n ->
             stamp (trackers s n) < stamp (trackers s goal)).
Proof.
  unfold newer_than_both, newer_than. rewrite andb_true_iff.
  destruct (current_goal (self s)) as [|c], (next_goal (self s)) as [|n];
    rewrite ?Z.gtb_ltb, ?Z.ltb_lt; split.
  all: try (intros _; split; try reflexivity; intros ? ?; discriminate).
  all: try (intros [H1 H2]; split; intros k E; try discriminate;
            injection E as <-; assumption).
  all: intros [H1 H2]; split; try reflexivity; auto.
Qed.

(* ===================================================================== *)
(** ** internal_goal_callback *)
(* ===================================================================== *)

(** C2.  A goal whose stamp is not strictly greater than the stamp of the
    goal in the current slot, or of the goal in the next slot, is rejected:
    [internal_goal_callback] returns, the submitted goal is PREEMPTED, no
    other goal changes, and both slots and the three flags are as before;
    no callback is called and the lock is released. *)
Theorem C2_stale_goal_rejected (s : State) (goal : string) :
  (exists c, current_goal (self s) = Handle c /\
             stamp (trackers s goal) <= stamp (trackers s c)) \/
  (exists n, next_goal (self s) = Handle n /\
             stamp (trackers s goal) <= stamp (trackers s n)) ->
  let s' := exec (internal_goal_callback goal) s in
  fst (internal_goal_callback goal s) = Ret tt /\
  status (trackers s' goal) = PREEMPTED /\
  (forall k, k <> goal -> trackers s' k = trackers s k) /\
  current_goal (self s') = current_goal (self s) /\
  next_goal (self s') = next_goal (self s) /\
  new_goal (self s') = new_goal (self s) /\
  preempt_request (self s') = preempt_request (self s) /\
  new_goal_preempt_request (self s') = new_goal_preempt_request (self s) /\
  emitted s s' = [LogDebug msg_new_goal] /\
  lock s' = lock s.
Proof.
  intros H.
  assert (Hold : newer_than_both s goal = false).
  { destruct (newer_than_both s goal) eqn:E; [|reflexivity].
    apply newer_than_both_true in E. destruct E as [Hc Hn].
    destruct H as [(c & Ec & Hle) | (n & En & Hle)].
    - specialize (Hc c Ec). lia.
    - specialize (Hn n En). lia. }
  cbv zeta. unfold exec.
  rewrite (internal_goal_callback_rejected s goal Hold). cbn.
  repeat split; trivial.
  - now rewrite update_same.
  - intros k Hk. now apply update_other.
  - now apply emitted_app.
Qed.

Lemma C2_stale_goal_rejected_witness :
  (next_goal (self A_active_B_next) = Handle "B" /\
   stamp (trackers A_active_B_next "C") <= stamp (trackers A_active_B_next "B")) /\
  status (trackers (exec (internal_goal_callback "C") A_active_B_next) "C")
    = PREEMPTED /\
  next_goal (self (exec (internal_goal_callback "C") A_active_B_next))
    = Handle "B".
Proof.
  assert (H : next_goal (self A_active_B_next) = Handle "B" /\
              stamp (trackers A_active_B_next "C")
                <= stamp (trackers A_active_B_next "B")).
  { split; [reflexivity|]. vm_compute. discriminate. }
  split; [exact H|].
  destruct (C2_stale_goal_rejected A_active_B_next "C"
              (or_intror (ex_intro _ "B" H)))
    as (_ & Hst & _ & _ & Hn & _).
  split; [exact Hst|]. rewrite Hn. reflexivity.
Defined.

(** C4.  A goal whose stamp is strictly greater than the stamp of the goal
    in the current slot and of the goal in the next slot (for the slots
    that hold one) is admitted: the goal that was in the next slot is
    PREEMPTED if it is not the current goal, and no other goal changes; the
    submitted goal is in the next slot; [new_goal] is True and
    [new_goal_preempt_request] False; and if the current goal is ACTIVE or
    PREEMPTING then [preempt_request] is True and the registered preempt
    callback, if any, has been called (otherwise [preempt_request] is as
    before and no preempt callback is called). *)
Theorem C4_newer_goal_admitted (s : State) (goal : string) :
  (forall c, current_goal (self s) = Handle c ->
             stamp (trackers s c) < stamp (trackers s goal)) ->
  (forall n, next_goal (self s) = Handle n ->
             stamp (trackers s n) < stamp (trackers s goal)) ->
  let s' := exec (internal_goal_callback goal) s in
  (forall n, next_goal (self s) = Handle n -> current_goal (self s) <> Handle n ->
             status (trackers s' n) = PREEMPTED) /\
  (forall k, ~ (next_goal (self s) = Handle k /\ current_goal (self s) <> Handle k) ->
             trackers s' k = trackers s k) /\
  current_goal (self s') = current_goal (self s) /\
  next_goal (self s') = Handle goal /\
  new_goal (self s') = true /\
  new_goal_preempt_request (self s') = false /\
  (active s = true ->
     preempt_request (self s') = true /\
     (forall cb, preempt_callback (self s) = Some cb ->
                 In CallPreemptCallback (emitted s s'))) /\
  (active s = false ->
     preempt_request (self s') = preempt_request (self s) /\
     ~ In CallPreemptCallback (emitted s s')).
Proof.
  intros Hc Hn.
  assert (Hnew : newer_than_both s goal = true)
    by (apply newer_than_both_true; now split).
  cbv zeta. unfold exec.
  rewrite (internal_goal_callback_admitted s goal Hnew). cbn.
  split; [|split; [|split; [|split; [|split; [|split; [|split]]]]]]; trivial.
  - intros n En Hne. unfold bumped. rewrite En. cbn.
    destruct (current_goal (self s)) as [|c]; cbn.
    + now rewrite update_same.
    + rewrite (proj2 (handle_ne_goals n c)) by congruence.
      now rewrite update_same.
  - intros k Hk. unfold bumped.
    destruct (next_goal (self s)) as [|n]; cbn; [reflexivity|].
    destruct (current_goal (self s)) as [|c]; cbn.
    + apply update_other. intros ->. apply Hk. split; [reflexivity|discriminate].
    + destruct (handle.ne (Handle n) (Handle c)) eqn:E; [|reflexivity].
      apply handle_ne_goals in E. apply update_other. intros ->. apply Hk.
      split; [reflexivity|congruence].
  - intros Ha. rewrite Ha. cbn. split; [reflexivity|].
    intros cb Hcb. erewrite emitted_app by reflexivity.
    rewrite Hcb. cbn. auto.
  - intros Ha. rewrite Ha. cbn. split; [reflexivity|].
    erewrite emitted_app by reflexivity. cbn.
    destruct (goal_callback (self s)) as [[|]|]; cbn; intuition discriminate.
Qed.

Lemma C4_newer_goal_admitted_witness :
  active A_active = true /\
  status (trackers (exec (internal_goal_callback "D") A_active_B_next) "B")
    = PREEMPTED /\
  next_goal (self (exec (internal_goal_callback "D") A_active_B_next))
    = Handle "D" /\
  preempt_request (self (exec (internal_goal_callback "B") A_active)) = true.
Proof.
  assert (Ha : active A_active = true) by reflexivity.
  split; [exact Ha|].
  assert (Hc : forall c, current_goal (self A_active_B_next) = Handle c ->
                 stamp (trackers A_active_B_next c)
                   < stamp (trackers A_active_B_next "D")).
  { intros c E. injection E as <-. reflexivity. }
  assert (Hn : forall n, next_goal (self A_active_B_next) = Handle n ->
                 stamp (trackers A_active_B_next n)
                   < stamp (trackers A_active_B_next "D")).
  { intros n E. injection E as <-. reflexivity. }
  destruct (C4_newer_goal_admitted A_active_B_next "D" Hc Hn)
    as (Hbump & _ & _ & Hnext & _).
  split; [apply (Hbump "B"); [reflexivity | discriminate]|].
  split; [exact Hnext|].
  assert (Hc' : forall c, current_goal (self A_active) = Handle c ->
                 stamp (trackers A_active c) < stamp (trackers A_active "B")).
  { intros c E. injection E as <-. reflexivity. }
  assert (Hn' : forall n, next_goal (self A_active) = Handle n ->
                 stamp (trackers A_active n) < stamp (trackers A_active "B")).
  { intros n E. injection E as <-. reflexivity. }
  destruct (C4_newer_goal_admitted A_active "B" Hc' Hn')
    as (_ & _ & _ & _ & _ & _ & Hact & _).
  exact (proj1 (Hact Ha)).
Defined.

(** An exception of a user callback in an admitted submission is not
    handled: the clause [except e] reads the name [e], which nothing
    binds, so NameError replaces the exception, the handler (log and
    release) does not run, and the lock stays held. *)
Lemma callback_exception_leaves_lock_held (s : State) (goal : string) :
  newer_than_both s goal = true ->
  active s && raises (preempt_callback (self s))
  || raises (goal_callback (self s)) = true ->
  let s' := exec (internal_goal_callback goal) s in
  fst (internal_goal_callback goal s) = Raise (NameError "e") /\
  lock s' = S (lock s) /\
  (forall msg, ~ In (LogErr msg) (emitted s s')).
Proof.
  intros Hnew Hraise. cbv zeta. unfold exec.
  rewrite (internal_goal_callback_admitted s goal Hnew). cbn.
  rewrite Hraise. repeat split.
  intros msg. erewrite emitted_app by reflexivity. cbn.
  destruct (active s), (preempt_callback (self s)) as [[|]|],
    (goal_callback (self s)) as [[|]|]; cbn; intuition discriminate.
Qed.

(** C5, on the code.  B is submitted while A is active and the registered
    preempt callback raises: [internal_goal_callback] does not catch the
    exception, it raises NameError for the name [e] to the transport;
    nothing is logged at error level; and the lock, free before the call,
    is held after it. *)
Theorem C5_callback_exception_not_caught :
  let s := A_active_preempt_callback_raises in
  let s' := exec (internal_goal_callback "B") s in
  fst (internal_goal_callback "B" s) = Raise (NameError "e") /\
  lock s = 0%nat /\
  lock s' = 1%nat /\
  emitted s s' = [LogDebug msg_new_goal; CallPreemptCallback].
Proof. cbv zeta. repeat split. Qed.

(* ===================================================================== *)
(** ** internal_preempt_callback *)
(* ===================================================================== *)

Lemma internal_preempt_callback_eq s preempt :
  internal_preempt_callback preempt s =
  if handle.eq preempt (current_goal (self s)) then
    ((if raises (preempt_callback (self s)) then Raise UserError else Ret tt),
     mkState (assign_preempt_request true (self s)) (trackers s) (lock s)
             (terminate_mutex s)
             (trace s ++ LogDebug msg_preempt :: LogDebug msg_preempt_current ::
                      calls CallPreemptCallback (preempt_callback (self s))))
  else if handle.eq preempt (next_goal (self s)) then
    (Ret tt,
     mkState (assign_new_goal_preempt_request true (self s)) (trackers s) (lock s)
             (terminate_mutex s)
             (trace s ++ [LogDebug msg_preempt; LogDebug msg_preempt_next]))
  else (Ret tt, log_line s (LogDebug msg_preempt)).
Proof.
  destruct_state s. unfold internal_preempt_callback. unfold_monad. cbn.
  destruct (handle.eq preempt cur); cbn.
  - destruct pcb as [[|]|]; cbn; repeat rewrite <- app_assoc; reflexivity.
  - destruct (handle.eq preempt nxt); cbn;
      repeat rewrite <- app_assoc; reflexivity.
Qed.

(** C6.  A preempt token that equals the current goal handle sets
    [preempt_request] and calls the registered preempt callback, if any;
    otherwise a token that equals the next goal handle sets
    [new_goal_preempt_request] and calls nothing; any other token changes
    nothing in the server object and calls nothing.  No goal changes and
    the lock is released in every case. *)
Theorem C6_preempt_delivery (s : State) (preempt : ServerGoalHandle) :
  let s' := exec (internal_preempt_callback preempt) s in
  (handle.eq preempt (current_goal (self s)) = true ->
     self s' = assign_preempt_request true (self s) /\
     preempt_request (self s') = true /\
     (forall cb, preempt_callback (self s) = Some cb ->
                 In CallPreemptCallback (emitted s s')) /\
     (preempt_callback (self s) = None -> ~ In CallPreemptCallback (emitted s s'))) /\
  (handle.eq preempt (current_goal (self s)) = false ->
   handle.eq preempt (next_goal (self s)) = true ->
     self s' = assign_new_goal_preempt_request true (self s) /\
     new_goal_preempt_request (self s') = true /\
     ~ In CallPreemptCallback (emitted s s')) /\
  (handle.eq preempt (current_goal (self s)) = false ->
   handle.eq preempt (next_goal (self s)) = false ->
     self s' = self s /\
     ~ In CallPreemptCallback (emitted s s')) /\
  ~ In CallGoalCallback (emitted s s') /\
  trackers s' = trackers s /\
  lock s' = lock s.
Proof.
  cbv zeta. unfold exec. rewrite internal_preempt_callback_eq.
  destruct (handle.eq preempt (current_goal (self s))) eqn:Ec;
    [|destruct (handle.eq preempt (next_goal (self s))) eqn:En]; cbn;
    erewrite emitted_app by reflexivity;
    (split; [|split; [|split; [|split; [|split]]]]); trivial;
    try discriminate; try (intros; discriminate).
  - intros _. split; [reflexivity|]. split; [reflexivity|]. split.
    + intros cb ->. cbn. auto.
    + intros ->. cbn. intuition discriminate.
  - destruct (preempt_callback (self s)); cbn; intuition discriminate.
  - intros _ _. split; [reflexivity|]. split; [reflexivity|].
    cbn. intuition discriminate.
  - cbn. intuition discriminate.
  - intros _ _. split; [reflexivity|]. cbn. intuition discriminate.
  - cbn. intuition discriminate.
Qed.

Lemma C6_preempt_delivery_witness :
  handle.eq (Handle "B") (current_goal (self A_active_B_next)) = false /\
  handle.eq (Handle "B") (next_goal (self A_active_B_next)) = true /\
  new_goal_preempt_request
    (self (exec (internal_preempt_callback (Handle "B")) A_active_B_next)) = true /\
  handle.eq (Handle "A") (current_goal (self A_active_B_next)) = true /\
  preempt_request
    (self (exec (internal_preempt_callback (Handle "A")) A_active_B_next)) = true /\
  handle.eq (Handle "D") (current_goal (self A_active_B_next)) = false /\
  handle.eq (Handle "D") (next_goal (self A_active_B_next)) = false /\
  self (exec (internal_preempt_callback (Handle "D")) A_active_B_next)
    = self A_active_B_next.
Proof.
  assert (Hbc : handle.eq (Handle "B") (current_goal (self A_active_B_next)) = false)
    by reflexivity.
  assert (Hbn : handle.eq (Handle "B") (next_goal (self A_active_B_next)) = true)
    by reflexivity.
  assert (Hac : handle.eq (Handle "A") (current_goal (self A_active_B_next)) = true)
    by reflexivity.
  assert (Hdc : handle.eq (Handle "D") (current_goal (self A_active_B_next)) = false)
    by reflexivity.
  assert (Hdn : handle.eq (Handle "D") (next_goal (self A_active_B_next)) = false)
    by reflexivity.
  split; [exact Hbc|]. split; [exact Hbn|].
  split.
  { destruct (C6_preempt_delivery A_active_B_next (Handle "B")) as (_ & H & _).
    exact (proj1 (proj2 (H Hbc Hbn))). }
  split; [exact Hac|].
  split.
  { destruct (C6_preempt_delivery A_active_B_next (Handle "A")) as (H & _).
    exact (proj1 (proj2 (H Hac))). }
  split; [exact Hdc|]. split; [exact Hdn|].
  destruct (C6_preempt_delivery A_active_B_next (Handle "D")) as (_ & _ & H & _).
  exact (proj1 (H Hdc Hdn)).
Defined.

(* ===================================================================== *)
(** ** The status calls *)
(* ===================================================================== *)

Lemma set_succeeded_eq r s :
  set_succeeded r s = (Ret tt, mark SUCCEEDED (or_default r) s).
Proof. destruct_state s. reflexivity. Qed.

Lemma set_aborted_eq r s :
  set_aborted r s = (Ret tt, mark ABORTED (or_default r) s).
Proof. destruct_state s. reflexivity. Qed.

Lemma set_preempted_eq r s :
  set_preempted r s =
  (Ret tt, log_line (mark PREEMPTED (or_default r) s)
                    (LogDebug "Setting the current goal as canceled")).
Proof. destruct_state s. reflexivity. Qed.

Lemma accept_new_goal_unavailable s :
  new_goal (self s) = false \/ next_goal (self s) = NullHandle ->
  accept_new_goal s = (Ret None, log_line s (LogErr err_not_available)).
Proof.
  destruct_state s. cbn. unfold accept_new_goal. unfold_monad. cbn.
  intros [-> | ->]; [reflexivity|]. cbn. now rewrite orb_true_r.
Qed.

Lemma accept_new_goal_cases s :
  (new_goal (self s) = false \/ next_goal (self s) = NullHandle) \/
  (exists n, new_goal (self s) = true /\ next_goal (self s) = Handle n).
Proof.
  destruct (new_goal (self s)); [|now left; left].
  destruct (next_goal (self s)) as [|n]; [now left; right|].
  right. now exists n.
Qed.

(* ===================================================================== *)
(** ** One goal in execution *)
(* ===================================================================== *)














(* ===================================================================== *)
(** ** The next slot after an acceptance *)
(* ===================================================================== *)





(* ===================================================================== *)
(** ** executeLoop *)
(* ===================================================================== *)

Lemma executeLoop_finish_eq s :
  executeLoop_finish s =
  (Ret Continue,
   if active s
   then mkState (self s)
                (handle.set_aborted (Some DefaultResult) (trackers s)
                                    (current_goal (self s)))
                (lock s) (terminate_mutex s)
                (trace s ++ [LogWarn warn_not_terminal; Wait])
   else log_line s Wait).
Proof.
  destruct_state s. unfold executeLoop_finish, active. unfold_monad. cbn.
  destruct cur as [|c]; cbn; [reflexivity|].
  fold (is_live (status (w c))). destruct (is_live (status (w c))); cbn.
  - rewrite <- app_assoc. reflexivity.
  - reflexivity.
Qed.




(* ===================================================================== *)
(** ** Every operation, one by one *)
(* ===================================================================== *)

Lemma run_cons ecb op ops s :
  run ecb (op :: ops) s = run ecb ops (exec (run_op ecb op) s).
Proof. reflexivity. Qed.

Lemma exec_accept_then_ret s :
  exec (accept_new_goal ;; ret tt) s = exec accept_new_goal s.
Proof.
  unfold exec, bind, ret. now destruct (accept_new_goal s) as [[a|e] s1].
Qed.

(** [accept_new_goal] with a goal to accept, in one piece. *)
Lemma accept_new_goal_accepts s n :
  new_goal (self s) = true -> next_goal (self s) = Handle n ->
  accept_new_goal s =
  (Ret (Some (goal (trackers s n))),
   mkState (mkServer false (new_goal_preempt_request (self s)) false
                     (goal_callback (self s)) (preempt_callback (self s))
                     (need_to_terminate (self s)) (Handle n) (Handle n))
           (handle.set_accepted
              (if active s && handle.ne (current_goal (self s)) (Handle n)
               then handle.set_canceled None (trackers s) (current_goal (self s))
               else trackers s)
              (Handle n))
           (lock s) (terminate_mutex s)
           (trace s ++ [LogDebug "Accepting a new goal"])).
Proof.
  intros Hng Hnxt.
  rewrite (accept_new_goal_available s n Hng Hnxt), promote_next_goal_eq.
  unfold exec. rewrite preempt_current_goal_eq. cbn. rewrite Hnxt. cbn.
  rewrite update_same. cbn. do 3 f_equal.
  destruct (active s && handle.ne (current_goal (self s)) (Handle n)) eqn:E;
    [|reflexivity].
  apply andb_prop in E. destruct E as [Ha E]. unfold active in Ha.
  destruct (current_goal (self s)) as [|c]; [discriminate|].
  apply handle_ne_goals in E. cbn. now rewrite update_other by congruence.
Qed.

Lemma set_status_same_goal st r w h k :
  goal (handle.set_status st r w h k) = goal (w k) /\
  stamp (handle.set_status st r w h k) = stamp (w k).
Proof.
  destruct h as [|x]; cbn; [now split|].
  unfold update. destruct (String.eqb_spec k x) as [-> | _]; now split.
Qed.

Lemma same_goals_refl s : same_goals s s.
Proof. intros k. now split. Qed.

Lemma same_goals_trans s1 s2 s3 :
  same_goals s1 s2 -> same_goals s2 s3 -> same_goals s1 s3.
Proof.
  intros H12 H23 k. destruct (H12 k) as [G1 S1], (H23 k) as [G2 S2].
  split; congruence.
Qed.

Lemma same_goals_set_status st r s s' h :
  trackers s' = handle.set_status st r (trackers s) h -> same_goals s s'.
Proof. intros E k. rewrite E. apply set_status_same_goal. Qed.

Lemma same_goals_trackers s s' : trackers s' = trackers s -> same_goals s s'.
Proof. intros E k. rewrite E. now split. Qed.

Lemma same_goals_run_op ecb op s : same_goals s (exec (run_op ecb op) s).
Proof.
  destruct op; cbn [run_op].
  - unfold exec. destruct (newer_than_both s goal0) eqn:E.
    + rewrite (internal_goal_callback_admitted s goal0 E). cbn.
      destruct (bumped s).
      * now apply (same_goals_set_status PREEMPTED None _ _ (next_goal (self s))).
      * now apply same_goals_trackers.
    + rewrite (internal_goal_callback_rejected s goal0 E).
      now apply (same_goals_set_status PREEMPTED None _ _ (Handle goal0)).
  - unfold exec. rewrite internal_preempt_callback_eq.
    destruct (handle.eq preempt (current_goal (self s)));
      [|destruct (handle.eq preempt (next_goal (self s)))];
      now apply same_goals_trackers.
  - rewrite exec_accept_then_ret.
    destruct (accept_new_goal_cases s) as [H | (n & Hng & Hnxt)].
    + unfold exec. rewrite (accept_new_goal_unavailable s H).
      now apply same_goals_trackers.
    + unfold exec. rewrite (accept_new_goal_accepts s n Hng Hnxt).
      intros k. cbn [snd trackers]. unfold handle.set_accepted.
      match goal with
      | |- context [handle.set_status ACTIVE None ?W (Handle n)] =>
          destruct (set_status_same_goal ACTIVE None W (Handle n) k) as [G S]
      end.
      rewrite G, S.
      destruct (active s && handle.ne (current_goal (self s)) (Handle n));
        [apply set_status_same_goal | now split].
  - unfold exec. rewrite set_succeeded_eq.
    now apply (same_goals_set_status SUCCEEDED (or_default r) _ _ (current_goal (self s))).
  - unfold exec. rewrite set_aborted_eq.
    now apply (same_goals_set_status ABORTED (or_default r) _ _ (current_goal (self s))).
  - unfold exec. rewrite set_preempted_eq.
    now apply (same_goals_set_status PREEMPTED (or_default r) _ _ (current_goal (self s))).
  - now apply same_goals_trackers.
  - unfold register_goal_callback. destruct ecb; now apply same_goals_trackers.
  - now apply same_goals_trackers.
Qed.

Lemma same_goals_run ecb ops s : same_goals s (run ecb ops s).
Proof.
  revert s. induction ops as [|op ops IH]; intros s.
  - apply same_goals_refl.
  - rewrite run_cons.
    eapply same_goals_trans; [apply same_goals_run_op | apply IH].
Qed.

Lemma admitted_slots s goal :
  newer_than_both s goal = true ->
  let s' := exec (internal_goal_callback goal) s in
  new_goal (self s') = true /\
  next_goal (self s') = Handle goal /\
  current_goal (self s') = current_goal (self s).
Proof.
  intros E. cbv zeta. unfold exec.
  rewrite (internal_goal_callback_admitted s goal E). cbn. auto.
Qed.

(** An operation that keeps [new_goal] and both slots keeps them in
    step. *)
Lemma slots_in_step_frame s s' :
  new_goal (self s') = new_goal (self s) ->
  current_goal (self s') = current_goal (self s) ->
  next_goal (self s') = next_goal (self s) ->
  same_goals s s' ->
  slots_in_step s -> slots_in_step s'.
Proof.
  intros Hg Hc Hn Hsame [H0 H1]. split; rewrite Hg, Hc, Hn; [exact H0|].
  intros Hng. destruct (H1 Hng) as (n & En & Hlt). exists n. split; [exact En|].
  intros c Ec. destruct (Hsame c) as [_ ->], (Hsame n) as [_ ->]. now apply Hlt.
Qed.

Lemma slots_in_step_run_op ecb op s :
  slots_in_step s -> slots_in_step (exec (run_op ecb op) s).
Proof.
  intros Hinv.
  pose proof (same_goals_run_op ecb op s) as Hsame.
  destruct op; cbn [run_op] in *.
  - destruct (newer_than_both s goal0) eqn:E.
    + destruct (admitted_slots s goal0 E) as (Hg & Hn & Hc).
      split; [rewrite Hg; discriminate|]. intros _. exists goal0.
      split; [exact Hn|]. rewrite Hc. intros c Ec.
      destruct (Hsame c) as [_ ->], (Hsame goal0) as [_ ->].
      apply newer_than_both_true in E. destruct E as [E _]. now apply E.
    + unfold exec in *. rewrite (internal_goal_callback_rejected s goal0 E) in *.
      now apply (slots_in_step_frame s).
  - unfold exec in *. rewrite internal_preempt_callback_eq in *.
    destruct (handle.eq preempt (current_goal (self s)));
      [|destruct (handle.eq preempt (next_goal (self s)))];
      now apply (slots_in_step_frame s).
  - rewrite exec_accept_then_ret in *.
    destruct (accept_new_goal_cases s) as [H | (n & Hng & Hnxt)]; unfold exec in *.
    + rewrite (accept_new_goal_unavailable s H) in *.
      now apply (slots_in_step_frame s).
    + rewrite (accept_new_goal_accepts s n Hng Hnxt). split; cbn; [reflexivity|].
      discriminate.
  - unfold exec in *. rewrite set_succeeded_eq in *.
    now apply (slots_in_step_frame s).
  - unfold exec in *. rewrite set_aborted_eq in *.
    now apply (slots_in_step_frame s).
  - unfold exec in *. rewrite set_preempted_eq in *.
    now apply (slots_in_step_frame s).
  - now apply (slots_in_step_frame s).
  - unfold register_goal_callback in *.
    destruct ecb; now apply (slots_in_step_frame s).
  - now apply (slots_in_step_frame s).
Qed.

Lemma slots_in_step_run ecb ops s :
  slots_in_step s -> slots_in_step (run ecb ops s).
Proof.
  revert s. induction ops as [|op ops IH]; intros s Hinv.
  - exact Hinv.
  - rewrite run_cons. now apply IH, slots_in_step_run_op.
Qed.

Lemma slots_in_step_init w : slots_in_step (init w).
Proof. split; [reflexivity | discriminate]. Qed.

(* ===================================================================== *)
(** ** The slots of a server since its construction *)
(* ===================================================================== *)

(** X1.  On a server in any state reached from its construction, whenever
    [is_new_goal_available] answers True, [accept_new_goal] returns the
    goal in the next slot: the slot holds one, and the error of an
    acceptance without a goal is not logged. *)
Theorem X1_available_goal_is_accepted
        (execute_callback : option (option Goal -> M unit))
        (w : Trackers) (ops : list Op) :
  let s := run execute_callback ops (init w) in
  fst (is_new_goal_available s) = Ret true ->
  exists n, next_goal (self s) = Handle n /\
            fst (accept_new_goal s) = Ret (Some (goal (trackers s n))) /\
            emitted s (exec accept_new_goal s) = [LogDebug "Accepting a new goal"].
Proof.
  cbv zeta. set (s := run execute_callback ops (init w)).
  assert (Hinv : slots_in_step s) by apply slots_in_step_run, slots_in_step_init.
  intros Hav. assert (Hng : new_goal (self s) = true).
  { unfold is_new_goal_available, bind, get, ret in Hav. cbn in Hav. congruence. }
  destruct (proj2 Hinv Hng) as (n & Hn & _). exists n. split; [exact Hn|].
  unfold exec. rewrite (accept_new_goal_accepts s n Hng Hn). cbn.
  split; [reflexivity|]. now apply emitted_app.
Qed.

Lemma X1_available_goal_is_accepted_witness :
  fst (is_new_goal_available
         (run None [OpGoal "A"; OpAccept; OpGoal "B"] (init four_goals))) = Ret true /\
  exists n,
    next_goal (self (run None [OpGoal "A"; OpAccept; OpGoal "B"] (init four_goals)))
      = Handle n /\
    fst (accept_new_goal
           (run None [OpGoal "A"; OpAccept; OpGoal "B"] (init four_goals)))
      = Ret (Some (goal (trackers
           (run None [OpGoal "A"; OpAccept; OpGoal "B"] (init four_goals)) n))).
Proof.
  assert (H : fst (is_new_goal_available
                (run None [OpGoal "A"; OpAccept; OpGoal "B"] (init four_goals)))
              = Ret true) by reflexivity.
  split; [exact H|].
  destruct (X1_available_goal_is_accepted None four_goals
              [OpGoal "A"; OpAccept; OpGoal "B"] H) as (n & Hn & Hr & _).
  exists n. split; [exact Hn | exact Hr].
Defined.



Lemma next_stamp_run_op ecb op s n :
  next_goal (self s) = Handle n ->
  exists n', next_goal (self (exec (run_op ecb op) s)) = Handle n' /\
             stamp (trackers s n) <= stamp (trackers s n').
Proof.
  intros Hn.
  assert (Hkeep : next_goal (self (exec (run_op ecb op) s)) = next_goal (self s) ->
                  exists n', next_goal (self (exec (run_op ecb op) s)) = Handle n' /\
                             stamp (trackers s n) <= stamp (trackers s n')).
  { intros E. exists n. rewrite E. split; [exact Hn | lia]. }
  destruct op; cbn [run_op] in *.
  - destruct (newer_than_both s goal0) eqn:E.
    + destruct (admitted_slots s goal0 E) as (_ & Hn' & _).
      exists goal0. split; [exact Hn'|].
      apply newer_than_both_true in E. destruct E as [_ E].
      specialize (E n Hn). lia.
    + apply Hkeep. unfold exec.
      now rewrite (internal_goal_callback_rejected s goal0 E).
  - apply Hkeep. unfold exec. rewrite internal_preempt_callback_eq.
    destruct (handle.eq preempt (current_goal (self s)));
      [|destruct (handle.eq preempt (next_goal (self s)))]; reflexivity.
  - apply Hkeep. rewrite exec_accept_then_ret. unfold exec.
    destruct (accept_new_goal_cases s) as [H | (m & Hng & Hnxt)].
    + now rewrite (accept_new_goal_unavailable s H).
    + rewrite (accept_new_goal_accepts s m Hng Hnxt). cbn. congruence.
  - apply Hkeep. unfold exec. now rewrite set_succeeded_eq.
  - apply Hkeep. unfold exec. now rewrite set_aborted_eq.
  - apply Hkeep. unfold exec. now rewrite set_preempted_eq.
  - apply Hkeep. reflexivity.
  - apply Hkeep. unfold register_goal_callback. now destruct ecb.
  - apply Hkeep. reflexivity.
Qed.

Lemma next_stamp_run ecb ops s n :
  next_goal (self s) = Handle n ->
  exists n', next_goal (self (run ecb ops s)) = Handle n' /\
             stamp (trackers s n) <= stamp (trackers s n').
Proof.
  revert s n. induction ops as [|op ops IH]; intros s n Hn.
  - exists n. split; [exact Hn | lia].
  - rewrite run_cons.
    destruct (next_stamp_run_op ecb op s n Hn) as (n1 & Hn1 & Hle1).
    destruct (IH _ n1 Hn1) as (n2 & Hn2 & Hle2).
    exists n2. split; [exact Hn2|].
    destruct (same_goals_run_op ecb op s n1) as [_ E1].
    destruct (same_goals_run_op ecb op s n2) as [_ E2].
    rewrite E1, E2 in Hle2. lia.
Qed.

(** X3.  Once a goal is in the next slot, a goal whose stamp is not later
    than its stamp is rejected, now and after any further operations: the
    stamp of the goal in the next slot never goes back.  The rejected
    submission is PREEMPTED and the server object is left as it is. *)
Theorem X3_stale_goal_stays_rejected
        (execute_callback : option (option Goal -> M unit))
        (s : State) (n goal : string) (ops : list Op) :
  next_goal (self s) = Handle n ->
  stamp (trackers s goal) <= stamp (trackers s n) ->
  let s1 := run execute_callback ops s in
  let s2 := exec (internal_goal_callback goal) s1 in
  newer_than_both s1 goal = false /\
  fst (internal_goal_callback goal s1) = Ret tt /\
  self s2 = self s1 /\
  status (trackers s2 goal) = PREEMPTED.
Proof.
  intros Hn Hle. cbv zeta.
  destruct (next_stamp_run execute_callback ops s n Hn) as (n' & Hn' & Hle').
  assert (Hrej : newer_than_both (run execute_callback ops s) goal = false).
  { destruct (newer_than_both _ goal) eqn:E; [|reflexivity].
    apply newer_than_both_true in E. destruct E as [_ E].
    specialize (E n' Hn').
    destruct (same_goals_run execute_callback ops s n') as [_ E1].
    destruct (same_goals_run execute_callback ops s goal) as [_ E2].
    rewrite E1, E2 in E. lia. }
  split; [exact Hrej|]. unfold exec.
  rewrite (internal_goal_callback_rejected _ goal Hrej). cbn.
  repeat split. now rewrite update_same.
Qed.

Lemma X3_stale_goal_stays_rejected_witness :
  next_goal (self A_active_B_next) = Handle "B" /\
  stamp (trackers A_active_B_next "A") <= stamp (trackers A_active_B_next "B") /\
  newer_than_both
    (run None [OpAccept; OpSetSucceeded None; OpGoal "D"] A_active_B_next) "A"
    = false.
Proof.
  assert (Hn : next_goal (self A_active_B_next) = Handle "B") by reflexivity.
  assert (Hle : stamp (trackers A_active_B_next "A")
                <= stamp (trackers A_active_B_next "B"))
    by (vm_compute; discriminate).
  split; [exact Hn|]. split; [exact Hle|].
  exact (proj1 (X3_stale_goal_stays_rejected None A_active_B_next "B" "A"
                  [OpAccept; OpSetSucceeded None; OpGoal "D"] Hn Hle)).
Defined.

(* ===================================================================== *)
(** ** The lock and the callbacks *)
(* ===================================================================== *)

(** X4.  Every operation ends with the lock held as often as before the
    call, with one exception: an [internal_goal_callback] that ends with
    NameError (a user callback raised) holds the lock once more. *)
Theorem X4_lock_after_operation
        (execute_callback : option (option Goal -> M unit))
        (op : Op) (s : State) :
  let s' := exec (run_op execute_callback op) s in
  lock s' = lock s \/
  (exists goal, op = OpGoal goal /\
     fst (run_op execute_callback op s) = Raise (NameError "e") /\
     lock s' = S (lock s)).
Proof.
  cbv zeta. destruct op; cbn [run_op].
  - unfold exec. destruct (newer_than_both s goal0) eqn:E.
    + rewrite (internal_goal_callback_admitted s goal0 E). cbn.
      destruct (active s && raises (preempt_callback (self s))
                || raises (goal_callback (self s))).
      * right. exists goal0. auto.
      * now left.
    + rewrite (internal_goal_callback_rejected s goal0 E). now left.
  - left. unfold exec. rewrite internal_preempt_callback_eq.
    destruct (handle.eq preempt (current_goal (self s)));
      [|destruct (handle.eq preempt (next_goal (self s)))]; reflexivity.
  - left. rewrite exec_accept_then_ret. unfold exec.
    destruct (accept_new_goal_cases s) as [H | (m & Hng & Hnxt)].
    + now rewrite (accept_new_goal_unavailable s H).
    + now rewrite (accept_new_goal_accepts s m Hng Hnxt).
  - left. unfold exec. now rewrite set_succeeded_eq.
  - left. unfold exec. now rewrite set_aborted_eq.
  - left. unfold exec. now rewrite set_preempted_eq.
  - now left.
  - left. unfold register_goal_callback. now destruct execute_callback.
  - now left.
Qed.

(** X5.  When the preempt token is for the current goal and the registered
    preempt callback raises, [internal_preempt_callback] passes the
    exception on to its caller; [preempt_request] is set all the same and
    the lock is released.  In every other case it returns normally. *)
Theorem X5_preempt_callback_exception (s : State) (preempt : ServerGoalHandle) :
  let s' := exec (internal_preempt_callback preempt) s in
  (handle.eq preempt (current_goal (self s)) = true ->
   preempt_callback (self s) = Some Raises ->
     fst (internal_preempt_callback preempt s) = Raise UserError /\
     preempt_request (self s') = true /\
     lock s' = lock s) /\
  (handle.eq preempt (current_goal (self s)) = false \/
   preempt_callback (self s) <> Some Raises ->
     fst (internal_preempt_callback preempt s) = Ret tt).
Proof.
  cbv zeta. unfold exec. rewrite internal_preempt_callback_eq. split.
  - intros -> ->. cbn. auto.
  - intros H. destruct (handle.eq preempt (current_goal (self s))).
    + destruct H as [H | H]; [discriminate|].
      destruct (preempt_callback (self s)) as [[|]|]; cbn; congruence.
    + now destruct (handle.eq preempt (next_goal (self s))).
Qed.

Lemma X5_preempt_callback_exception_witness :
  handle.eq (Handle "A") (current_goal (self A_active_preempt_callback_raises))
    = true /\
  preempt_callback (self A_active_preempt_callback_raises) = Some Raises /\
  fst (internal_preempt_callback (Handle "A") A_active_preempt_callback_raises)
    = Raise UserError /\
  fst (internal_preempt_callback (Handle "B") A_active_preempt_callback_raises)
    = Ret tt.
Proof.
  assert (He : handle.eq (Handle "A")
                 (current_goal (self A_active_preempt_callback_raises)) = true)
    by reflexivity.
  assert (Hcb : preempt_callback (self A_active_preempt_callback_raises)
                = Some Raises) by reflexivity.
  split; [exact He|]. split; [exact Hcb|]. split.
  - exact (proj1 (proj1 (X5_preempt_callback_exception
                           A_active_preempt_callback_raises (Handle "A")) He Hcb)).
  - apply (proj2 (X5_preempt_callback_exception
                    A_active_preempt_callback_raises (Handle "B"))).
    left. reflexivity.
Defined.

Lemma not_in_app (e : Event) (l1 l2 : list Event) :
  ~ In e l1 -> ~ In e l2 -> ~ In e (l1 ++ l2).
Proof. intros H1 H2 H. apply in_app_or in H. tauto. Qed.

Lemma goal_callback_unset_run_op cb op s :
  goal_callback (self s) = None -> ~ In CallGoalCallback (trace s) ->
  let s' := exec (run_op (Some cb) op) s in
  goal_callback (self s') = None /\ ~ In CallGoalCallback (trace s').
Proof.
  intros Hg Ht. cbv zeta. destruct op; cbn [run_op].
  - unfold exec. destruct (newer_than_both s goal0) eqn:E.
    + rewrite (internal_goal_callback_admitted s goal0 E). cbn.
      split; [exact Hg|]. apply not_in_app; [exact Ht|]. rewrite Hg. cbn.
      destruct (active s), (preempt_callback (self s)) as [[|]|]; cbn;
        intuition discriminate.
    + rewrite (internal_goal_callback_rejected s goal0 E). cbn.
      split; [exact Hg|]. apply not_in_app; [exact Ht|]. cbn.
      intuition discriminate.
  - unfold exec. rewrite internal_preempt_callback_eq.
    destruct (handle.eq preempt (current_goal (self s)));
      [|destruct (handle.eq preempt (next_goal (self s)))]; cbn;
      (split; [exact Hg|]); (apply not_in_app; [exact Ht|]); cbn.
    + destruct (preempt_callback (self s)); cbn; intuition discriminate.
    + intuition discriminate.
    + intuition discriminate.
  - rewrite exec_accept_then_ret. unfold exec.
    destruct (accept_new_goal_cases s) as [H | (m & Hng & Hnxt)].
    + rewrite (accept_new_goal_unavailable s H). cbn.
      split; [exact Hg|]. apply not_in_app; [exact Ht|]. cbn.
      intuition discriminate.
    + rewrite (accept_new_goal_accepts s m Hng Hnxt). cbn.
      split; [exact Hg|]. apply not_in_app; [exact Ht|]. cbn.
      intuition discriminate.
  - unfold exec. rewrite set_succeeded_eq. now split.
  - unfold exec. rewrite set_aborted_eq. now split.
  - unfold exec. rewrite set_preempted_eq. cbn.
    split; [exact Hg|]. apply not_in_app; [exact Ht|]. cbn.
    intuition discriminate.
  - cbn. split; [exact Hg|]. apply not_in_app; [exact Ht|]. cbn.
    intuition discriminate.
  - cbn. split; [exact Hg|]. apply not_in_app; [exact Ht|]. cbn.
    intuition discriminate.
  - cbn. now split.
Qed.

(** X6.  A server constructed with an execute callback never has a goal
    callback: [register_goal_callback] only logs a warning, and whatever
    operations follow the construction, no goal callback is registered
    and none is ever called. *)
Theorem X6_execute_callback_excludes_goal_callback
        (cb : option Goal -> M unit) (w : Trackers) (ops : list Op)
        (gcb : Callback) :
  let s := run (Some cb) ops (init w) in
  self (exec (register_goal_callback (Some cb) gcb) s) = self s /\
  (exists msg, emitted s (exec (register_goal_callback (Some cb) gcb) s)
               = [LogWarn msg]) /\
  goal_callback (self s) = None /\
  ~ In CallGoalCallback (trace s).
Proof.
  cbv zeta. split; [reflexivity|]. split.
  { eexists. apply emitted_app. reflexivity. }
  assert (H : forall s0, goal_callback (self s0) = None ->
                         ~ In CallGoalCallback (trace s0) ->
                         goal_callback (self (run (Some cb) ops s0)) = None /\
                         ~ In CallGoalCallback (trace (run (Some cb) ops s0))).
  { induction ops as [|op ops IH]; intros s0 Hg Ht; [now split|].
    rewrite run_cons.
    destruct (goal_callback_unset_run_op cb op s0 Hg Ht) as [Hg' Ht'].
    now apply IH. }
  apply H; [reflexivity|]. cbn. tauto.
Qed.

(* ===================================================================== *)
(** ** Admission, preemption and acceptance in sequence *)
(* ===================================================================== *)

(** X7.  A preempt for the goal that waits in the next slot calls no
    preempt callback and leaves [preempt_request] alone; the acceptance
    that follows sets [preempt_request], so that [is_preempt_requested]
    answers True for the goal just made current and ACTIVE. *)
Theorem X7_preempt_of_waiting_goal (s : State) (n : string) :
  new_goal (self s) = true ->
  next_goal (self s) = Handle n ->
  current_goal (self s) <> Handle n ->
  let s1 := exec (internal_preempt_callback (Handle n)) s in
  let s2 := exec accept_new_goal s1 in
  preempt_request (self s1) = preempt_request (self s) /\
  ~ In CallPreemptCallback (emitted s s1) /\
  current_goal (self s2) = Handle n /\
  status (trackers s2 n) = ACTIVE /\
  preempt_request (self s2) = true /\
  fst (is_preempt_requested s2) = Ret true.
Proof.
  intros Hng Hn Hc. cbv zeta.
  assert (Hcur : handle.eq (Handle n) (current_goal (self s)) = false).
  { destruct (current_goal (self s)) as [|c]; [reflexivity|]. cbn.
    apply String.eqb_neq. congruence. }
  assert (E1 : internal_preempt_callback (Handle n) s =
               (Ret tt,
                mkState (assign_new_goal_preempt_request true (self s))
                        (trackers s) (lock s) (terminate_mutex s)
                        (trace s ++ [LogDebug msg_preempt; LogDebug msg_preempt_next]))).
  { rewrite internal_preempt_callback_eq, Hcur, Hn. cbn.
    now rewrite String.eqb_refl. }
  set (s1 := exec (internal_preempt_callback (Handle n)) s).
  assert (Es1 : s1 = mkState (assign_new_goal_preempt_request true (self s))
                        (trackers s) (lock s) (terminate_mutex s)
                        (trace s ++ [LogDebug msg_preempt; LogDebug msg_preempt_next])).
  { unfold s1, exec. now rewrite E1. }
  assert (Hng1 : new_goal (self s1) = true) by (rewrite Es1; exact Hng).
  assert (Hn1 : next_goal (self s1) = Handle n) by (rewrite Es1; exact Hn).
  split; [now rewrite Es1|].
  split.
  { erewrite emitted_app by (rewrite Es1; reflexivity). cbn.
    intuition discriminate. }
  unfold exec. rewrite (accept_new_goal_accepts s1 n Hng1 Hn1). cbn.
  rewrite update_same. rewrite Es1. cbn. auto.
Qed.

Lemma X7_preempt_of_waiting_goal_witness :
  new_goal (self A_active_B_next) = true /\
  next_goal (self A_active_B_next) = Handle "B" /\
  current_goal (self A_active_B_next) <> Handle "B" /\
  fst (is_preempt_requested
         (exec accept_new_goal
            (exec (internal_preempt_callback (Handle "B")) A_active_B_next)))
    = Ret true.
Proof.
  assert (Hng : new_goal (self A_active_B_next) = true) by reflexivity.
  assert (Hn : next_goal (self A_active_B_next) = Handle "B") by reflexivity.
  assert (Hc : current_goal (self A_active_B_next) <> Handle "B") by discriminate.
  split; [exact Hng|]. split; [exact Hn|]. split; [exact Hc|].
  destruct (X7_preempt_of_waiting_goal A_active_B_next "B" Hng Hn Hc)
    as (_ & _ & _ & _ & _ & H).
  exact H.
Defined.

(** X8.  An admitted submission followed by its acceptance: the submitted
    goal is current and ACTIVE and is the value returned, the goal it
    replaces is PREEMPTED if it was ACTIVE or PREEMPTING, and
    [preempt_request] is False, also when the admission had set it for
    the goal that was active. *)
Theorem X8_admission_then_acceptance (s : State) (submitted : string) :
  newer_than_both s submitted = true ->
  let s1 := exec (internal_goal_callback submitted) s in
  let s2 := exec accept_new_goal s1 in
  preempt_request (self s1) = active s || preempt_request (self s) /\
  fst (accept_new_goal s1) = Ret (Some (goal (trackers s submitted))) /\
  current_goal (self s2) = Handle submitted /\
  status (trackers s2 submitted) = ACTIVE /\
  preempt_request (self s2) = false /\
  new_goal (self s2) = false /\
  (forall c, current_goal (self s) = Handle c -> live_goal s c ->
             status (trackers s2 c) = PREEMPTED).
Proof.
  intros Hnew. cbv zeta.
  set (s1 := exec (internal_goal_callback submitted) s).
  destruct (admitted_slots s submitted Hnew) as (Hng & Hn & Hc). fold s1 in Hng, Hn, Hc.
  assert (Hpr : preempt_request (self s1) = active s || preempt_request (self s)).
  { unfold s1, exec. now rewrite (internal_goal_callback_admitted s submitted Hnew). }
  assert (Hnpr : new_goal_preempt_request (self s1) = false).
  { unfold s1, exec. now rewrite (internal_goal_callback_admitted s submitted Hnew). }
  split; [exact Hpr|].
  destruct (accept_new_goal_promotes s1 submitted Hng Hn)
    as (Hcancel & _ & Hcur & Hng2 & Hpr2 & _ & Hact & _ & Hret).
  split.
  { rewrite Hret. destruct (same_goals_run_op None (OpGoal submitted) s submitted) as [G _].
    cbn [run_op] in G. fold s1 in G. now rewrite G. }
  split; [congruence|]. split; [exact Hact|]. split; [congruence|].
  split; [exact Hng2|].
  intros c Ec Hlive.
  assert (Hne : c <> submitted).
  { intros ->. apply newer_than_both_true in Hnew. destruct Hnew as [H _].
    specialize (H submitted Ec). lia. }
  apply Hcancel; [congruence | | exact Hne].
  unfold live_goal, s1, exec.
  rewrite (internal_goal_callback_admitted s submitted Hnew). cbn.
  unfold bumped. rewrite Ec.
  destruct (next_goal (self s)) as [|n]; cbn; [exact Hlive|].
  destruct (handle.ne (Handle n) (Handle c)) eqn:E; [|exact Hlive].
  apply handle_ne_goals in E. cbn. now rewrite update_other by congruence.
Qed.

Lemma X8_admission_then_acceptance_witness :
  newer_than_both A_active "B" = true /\
  preempt_request (self (exec (internal_goal_callback "B") A_active)) = true /\
  preempt_request
    (self (exec accept_new_goal (exec (internal_goal_callback "B") A_active)))
    = false /\
  status (trackers
            (exec accept_new_goal (exec (internal_goal_callback "B") A_active)) "A")
    = PREEMPTED.
Proof.
  assert (Hnew : newer_than_both A_active "B" = true) by reflexivity.
  split; [exact Hnew|].
  destruct (X8_admission_then_acceptance A_active "B" Hnew)
    as (Hpr & _ & _ & _ & Hpr2 & _ & Hold).
  split; [rewrite Hpr; reflexivity|]. split; [exact Hpr2|].
  apply Hold; reflexivity.
Defined.

(** X9.  [accept_new_goal] uses up the goal it accepts: called again with
    no admission in between, it logs the error and returns None, and the
    accepted goal stays current and ACTIVE. *)
Theorem X9_second_acceptance_fails (s : State) (n : string) :
  new_goal (self s) = true ->
  next_goal (self s) = Handle n ->
  let s1 := exec accept_new_goal s in
  let s2 := exec accept_new_goal s1 in
  fst (accept_new_goal s1) = Ret None /\
  emitted s1 s2 = [LogErr err_not_available] /\
  self s2 = self s1 /\
  trackers s2 = trackers s1 /\
  current_goal (self s2) = Handle n /\
  status (trackers s2 n) = ACTIVE.
Proof.
  intros Hng Hn. cbv zeta.
  set (s1 := exec accept_new_goal s).
  assert (E1 : new_goal (self s1) = false /\ current_goal (self s1) = Handle n /\
               status (trackers s1 n) = ACTIVE).
  { unfold s1, exec. rewrite (accept_new_goal_accepts s n Hng Hn). cbn.
    rewrite update_same. auto. }
  destruct E1 as (Hng1 & Hc1 & Hst1).
  unfold exec. rewrite (accept_new_goal_unavailable s1 (or_introl Hng1)). cbn.
  repeat split; trivial. now apply emitted_app.
Qed.

Lemma X9_second_acceptance_fails_witness :
  new_goal (self A_submitted) = true /\
  next_goal (self A_submitted) = Handle "A" /\
  fst (accept_new_goal (exec accept_new_goal A_submitted)) = Ret None.
Proof.
  assert (Hng : new_goal (self A_submitted) = true) by reflexivity.
  assert (Hn : next_goal (self A_submitted) = Handle "A") by reflexivity.
  split; [exact Hng|]. split; [exact Hn|].
  exact (proj1 (X9_second_acceptance_fails A_submitted "A" Hng Hn)).
Defined.

(* ===================================================================== *)
(** ** set_succeeded, set_aborted, set_preempted *)
(* ===================================================================== *)

(* ===================================================================== *)
(** ** set_succeeded, set_aborted, set_preempted *)
(* ===================================================================== *)

Lemma marked_mark st r k s :
  current_goal (self s) = Handle k -> marked st r k s (mark st (Some r) s).
Proof.
  intros Hk. unfold marked, mark. cbn. rewrite Hk. cbn.
  rewrite update_same. repeat split.
  intros k' Hk'. now apply update_other.
Qed.

(** X10.  With goal [k] in the current slot and ACTIVE or PREEMPTING,
    [set_succeeded], [set_aborted] and [set_preempted] return normally and
    give [k] the status SUCCEEDED, ABORTED and PREEMPTED; the result sent
    is the one passed, and the default result when none is passed.  No
    other goal, no slot and no flag changes, the lock is released, and
    only [set_preempted] logs a line. *)
Theorem X10_status_calls (s : State) (k : string) (r : option Result) :
  current_goal (self s) = Handle k ->
  status (trackers s k) = ACTIVE \/ status (trackers s k) = PREEMPTING ->
  let sent := match r with Some x => x | None => get_default_result end in
  (fst (set_succeeded r s) = Ret tt /\
   marked SUCCEEDED sent k s (exec (set_succeeded r) s) /\
   trace (exec (set_succeeded r) s) = trace s) /\
  (fst (set_aborted r s) = Ret tt /\
   marked ABORTED sent k s (exec (set_aborted r) s) /\
   trace (exec (set_aborted r) s) = trace s) /\
  (fst (set_preempted r s) = Ret tt /\
   marked PREEMPTED sent k s (exec (set_preempted r) s) /\
   emitted s (exec (set_preempted r) s)
     = [LogDebug "Setting the current goal as canceled"]).
Proof.
  intros Hk _. cbv zeta. unfold exec.
  rewrite set_succeeded_eq, set_aborted_eq, set_preempted_eq.
  assert (E : or_default r = Some match r with Some x => x | None => get_default_result end)
    by now destruct r.
  rewrite E. cbn [fst snd].
  repeat split; try (now apply marked_mark); try (apply (marked_mark _ _ _ _ Hk)).
  now apply emitted_app.
Qed.

Lemma X10_status_calls_witness :
  current_goal (self A_active) = Handle "A" /\
  (status (trackers A_active "A") = ACTIVE \/
   status (trackers A_active "A") = PREEMPTING) /\
  status (trackers (exec (set_succeeded None) A_active) "A") = SUCCEEDED /\
  result (trackers (exec (set_aborted (Some (UserResult 7))) A_active) "A")
    = Some (UserResult 7) /\
  result (trackers (exec (set_preempted None) A_active) "A") = Some DefaultResult.
Proof.
  assert (Hk : current_goal (self A_active) = Handle "A") by reflexivity.
  assert (Hlive : status (trackers A_active "A") = ACTIVE \/
                  status (trackers A_active "A") = PREEMPTING)
    by (left; reflexivity).
  split; [exact Hk|]. split; [exact Hlive|].
  destruct (X10_status_calls A_active "A" None Hk Hlive)
    as ((_ & (Hs & _) & _) & _ & (_ & (_ & Hp & _) & _)).
  destruct (X10_status_calls A_active "A" (Some (UserResult 7)) Hk Hlive)
    as (_ & (_ & (_ & Ha & _) & _) & _).
  split; [exact Hs|]. split; [exact Ha | exact Hp].
Defined.

(* ===================================================================== *)
(** ** The turns of executeLoop *)
(* ===================================================================== *)

Lemma executeLoop_select_active ecb s :
  active s = true ->
  executeLoop_select ecb s =
  (Ret (inl tt),
   log_line s (LogErr "Should never reach this code with an active goal")).
Proof.
  destruct_state s. unfold active, executeLoop_select. cbn. intros Ha.
  unfold_monad. cbn. destruct cur as [|c]; [discriminate|]. cbn.
  fold (is_live (status (w c))). rewrite Ha. reflexivity.
Qed.

Lemma executeLoop_select_idle ecb s :
  active s = false -> new_goal (self s) = false ->
  executeLoop_select ecb s = (Ret (inr None), s).
Proof.
  destruct_state s. unfold active, executeLoop_select. cbn. intros Ha ->.
  unfold_monad. cbn. destruct cur as [|c]; [reflexivity|]. cbn.
  fold (is_live (status (w c))). rewrite Ha. reflexivity.
Qed.

Lemma executeLoop_select_ready cb s n :
  active s = false -> new_goal (self s) = true -> next_goal (self s) = Handle n ->
  executeLoop_select (Some cb) s =
  (Ret (inr (Some (Some (goal (trackers s n))))), exec accept_new_goal s).
Proof.
  destruct_state s. unfold active. cbn. intros Ha -> ->.
  unfold exec, executeLoop_select, accept_new_goal, preempt_current_goal,
    promote_next_goal.
  unfold_monad. cbn.
  destruct cur as [|c]; cbn.
  - now rewrite update_same.
  - unfold is_live in Ha. repeat (rewrite Ha; cbn). now rewrite update_same.
Qed.

Lemma executeLoop_body_start ecb s :
  need_to_terminate (self s) = false ->
  executeLoop_body ecb s =
  (selected <- executeLoop_select ecb ;;
   match selected with
   | inl _ => ret Return
   | inr shall_run =>
       match shall_run, ecb with
       | Some goal, Some cb => emit (CallExecuteCallback goal) ;; cb goal
       | _, _ => ret tt
       end ;;
       executeLoop_finish
   end) (log_line s (LogDebug "SAS: execute")).
Proof.
  destruct_state s. cbn. intros ->. reflexivity.
Qed.

(** X11.  [__del__] on a server with an execute callback sets
    [need_to_terminate] and nothing else, and the next turn of
    [executeLoop] then leaves the loop at once: no goal is accepted, the
    execute callback is not called, and only the debug line of the turn is
    logged.  Without an execute callback [__del__] does nothing. *)
Theorem X11_terminate_request_ends_loop
        (cb : option Goal -> M unit) (s : State) (later : list bool) :
  let s1 := exec (__del__ (Some cb)) s in
  fst (__del__ (Some cb) s) = Ret tt /\
  s1 = mkState (assign_need_to_terminate true (self s)) (trackers s) (lock s)
               (terminate_mutex s) (trace s) /\
  executeLoop (Some cb) (false :: later) s1
    = (Ret Terminated, log_line s1 (LogDebug "SAS: execute")) /\
  __del__ None s = (Ret tt, s).
Proof.
  destruct_state s. cbv zeta. repeat split.
Qed.

(** X12.  A turn of [executeLoop] that finds the current goal ACTIVE or
    PREEMPTING logs an error and returns from the method: the loop ends,
    the execute callback is not called, no goal is accepted or changed
    and the lock is released. *)
Theorem X12_active_goal_stops_loop
        (execute_callback : option (option Goal -> M unit))
        (s : State) (later : list bool) :
  need_to_terminate (self s) = false ->
  active s = true ->
  executeLoop_body execute_callback s =
    (Ret Return,
     mkState (self s) (trackers s) (lock s) (terminate_mutex s)
             (trace s ++ [LogDebug "SAS: execute";
                          LogErr "Should never reach this code with an active goal"])) /\
  fst (executeLoop execute_callback (false :: later) s) = Ret Faulted.
Proof.
  intros Hnt Ha.
  assert (E : executeLoop_body execute_callback s =
    (Ret Return,
     mkState (self s) (trackers s) (lock s) (terminate_mutex s)
             (trace s ++ [LogDebug "SAS: execute";
                          LogErr "Should never reach this code with an active goal"]))).
  { rewrite (executeLoop_body_start _ s Hnt). unfold bind.
    rewrite executeLoop_select_active by exact Ha.
    unfold ret, log_line. cbn. now rewrite <- app_assoc. }
  split; [exact E|]. cbn [executeLoop]. unfold bind. rewrite E. reflexivity.
Qed.

Lemma X12_active_goal_stops_loop_witness :
  need_to_terminate (self A_active) = false /\
  active A_active = true /\
  fst (executeLoop (Some idle_execute_cb) [false; false] A_active) = Ret Faulted.
Proof.
  assert (Hnt : need_to_terminate (self A_active) = false) by reflexivity.
  assert (Ha : active A_active = true) by reflexivity.
  split; [exact Hnt|]. split; [exact Ha|].
  exact (proj2 (X12_active_goal_stops_loop (Some idle_execute_cb) A_active
                  [false] Hnt Ha)).
Defined.

(** X13.  A turn of [executeLoop] with no goal in execution and no new
    goal only waits on the condition: nothing changes but the trace, and
    the loop goes on. *)
Theorem X13_idle_turn
        (execute_callback : option (option Goal -> M unit)) (s : State) :
  need_to_terminate (self s) = false ->
  active s = false ->
  new_goal (self s) = false ->
  executeLoop_body execute_callback s =
    (Ret Continue,
     mkState (self s) (trackers s) (lock s) (terminate_mutex s)
             (trace s ++ [LogDebug "SAS: execute"; Wait])).
Proof.
  intros Hnt Ha Hng.
  rewrite (executeLoop_body_start _ s Hnt). unfold bind.
  rewrite executeLoop_select_idle by assumption.
  unfold ret. rewrite executeLoop_finish_eq.
  replace (active (log_line s (LogDebug "SAS: execute"))) with (active s)
    by reflexivity.
  rewrite Ha. unfold log_line. cbn. now rewrite <- app_assoc.
Qed.

Lemma X13_idle_turn_witness :
  need_to_terminate (self (init four_goals)) = false /\
  active (init four_goals) = false /\
  new_goal (self (init four_goals)) = false /\
  fst (executeLoop_body None (init four_goals)) = Ret Continue.
Proof.
  assert (Hnt : need_to_terminate (self (init four_goals)) = false) by reflexivity.
  assert (Ha : active (init four_goals) = false) by reflexivity.
  assert (Hng : new_goal (self (init four_goals)) = false) by reflexivity.
  split; [exact Hnt|]. split; [exact Ha|]. split; [exact Hng|].
  rewrite (X13_idle_turn None (init four_goals) Hnt Ha Hng). reflexivity.
Defined.

(** X14.  A turn of [executeLoop] that finds no goal in execution and a
    new goal [n] accepts it and calls the execute callback with its goal.
    At the call, [n] is the current goal and ACTIVE, [new_goal] is False,
    and the loop does not hold the lock. *)
Theorem X14_execute_callback_call
        (cb : option Goal -> M unit) (s : State) (n : string) :
  need_to_terminate (self s) = false ->
  active s = false ->
  new_goal (self s) = true ->
  next_goal (self s) = Handle n ->
  let g := Some (goal (trackers s n)) in
  let s0 := exec accept_new_goal (log_line s (LogDebug "SAS: execute")) in
  executeLoop_body (Some cb) s =
    (cb g ;; executeLoop_finish) (log_line s0 (CallExecuteCallback g)) /\
  current_goal (self s0) = Handle n /\
  status (trackers s0 n) = ACTIVE /\
  new_goal (self s0) = false /\
  lock s0 = lock s.
Proof.
  intros Hnt Ha Hng Hn. cbv zeta.
  set (s' := log_line s (LogDebug "SAS: execute")).
  assert (Ha' : active s' = false) by exact Ha.
  assert (Hng' : new_goal (self s') = true) by exact Hng.
  assert (Hn' : next_goal (self s') = Handle n) by exact Hn.
  split.
  - rewrite (executeLoop_body_start _ s Hnt). fold s'. unfold bind at 1.
    rewrite (executeLoop_select_ready cb s' n Ha' Hng' Hn').
    unfold bind, emit, modify, log_line. cbn. reflexivity.
  - unfold exec. rewrite (accept_new_goal_accepts s' n Hng' Hn'). cbn.
    rewrite update_same. auto.
Qed.

Lemma X14_execute_callback_call_witness :
  need_to_terminate (self A_submitted) = false /\
  active A_submitted = false /\
  new_goal (self A_submitted) = true /\
  next_goal (self A_submitted) = Handle "A" /\
  status (trackers (exec accept_new_goal
                      (log_line A_submitted (LogDebug "SAS: execute"))) "A")
    = ACTIVE.
Proof.
  assert (Hnt : need_to_terminate (self A_submitted) = false) by reflexivity.
  assert (Ha : active A_submitted = false) by reflexivity.
  assert (Hng : new_goal (self A_submitted) = true) by reflexivity.
  assert (Hn : next_goal (self A_submitted) = Handle "A") by reflexivity.
  split; [exact Hnt|]. split; [exact Ha|]. split; [exact Hng|]. split; [exact Hn|].
  destruct (X14_execute_callback_call idle_execute_cb A_submitted "A" Hnt Ha Hng Hn)
    as (_ & _ & H & _).
  exact H.
Defined.

Lemma active_after_finish s : active (snd (executeLoop_finish s)) = false.
Proof.
  rewrite executeLoop_finish_eq. cbn [snd].
  destruct (active s) eqn:Ha; [|exact Ha].
  unfold active in *. cbn.
  destruct (current_goal (self s)) as [|k]; [reflexivity|].
  cbn. now rewrite update_same.
Qed.

Lemma fst_executeLoop_finish s : fst (executeLoop_finish s) = Ret Continue.
Proof. now rewrite executeLoop_finish_eq. Qed.

Lemma executeLoop_body_stop ecb s :
  need_to_terminate (self s) = true ->
  executeLoop_body ecb s = (Ret Break, log_line s (LogDebug "SAS: execute")).
Proof. destruct_state s. cbn. intros ->. reflexivity. Qed.

(** X15.  A turn of [executeLoop] after which the loop goes on leaves no
    goal in execution: [is_active] is False at the end of the turn,
    whatever the execute callback did. *)
Theorem X15_turn_leaves_no_active_goal
        (execute_callback : option (option Goal -> M unit)) (s : State) :
  fst (executeLoop_body execute_callback s) = Ret Continue ->
  active (exec (executeLoop_body execute_callback) s) = false /\
  fst (is_active (exec (executeLoop_body execute_callback) s)) = Ret false.
Proof.
  intros H.
  assert (Hact : active (exec (executeLoop_body execute_callback) s) = false).
  { unfold exec. destruct (need_to_terminate (self s)) eqn:Hnt.
    - rewrite (executeLoop_body_stop _ s Hnt) in H. discriminate.
    - rewrite (executeLoop_body_start _ s Hnt) in *. unfold bind in *.
      destruct (executeLoop_select execute_callback _) as [[[u|shall_run]|e] s0];
        try discriminate.
      destruct shall_run as [g|], execute_callback as [cb|]; unfold ret in *.
      + unfold emit, modify in *.
        match goal with
        | |- context [cb g ?x] => destruct (cb g x) as [[u|e] s1]
        end; [|discriminate].
        apply active_after_finish.
      + apply active_after_finish.
      + apply active_after_finish.
      + apply active_after_finish. }
  split; [exact Hact|]. now rewrite is_active_eq, Hact.
Qed.

Lemma X15_turn_leaves_no_active_goal_witness :
  fst (executeLoop_body (Some idle_execute_cb) A_submitted) = Ret Continue /\
  active (exec (executeLoop_body (Some idle_execute_cb)) A_submitted) = false.
Proof.
  assert (H : fst (executeLoop_body (Some idle_execute_cb) A_submitted)
              = Ret Continue) by (vm_compute; reflexivity).
  split; [exact H|].
  exact (proj1 (X15_turn_leaves_no_active_goal (Some idle_execute_cb) A_submitted H)).
Defined.

(** X16.  [executeLoop] does not catch an exception of the execute
    callback: the exception leaves the loop, the state is as the callback
    left it, and the accepted goal is not set ABORTED by the loop. *)
Theorem X16_execute_callback_exception
        (cb : option Goal -> M unit) (s s1 : State) (n : string) (e : Exn)
        (later : list bool) :
  need_to_terminate (self s) = false ->
  active s = false ->
  new_goal (self s) = true ->
  next_goal (self s) = Handle n ->
  cb (Some (goal (trackers s n)))
     (log_line (exec accept_new_goal (log_line s (LogDebug "SAS: execute")))
               (CallExecuteCallback (Some (goal (trackers s n)))))
    = (Raise e, s1) ->
  executeLoop_body (Some cb) s = (Raise e, s1) /\
  executeLoop (Some cb) (false :: later) s = (Raise e, s1).
Proof.
  intros Hnt Ha Hng Hn Hcb.
  assert (E : executeLoop_body (Some cb) s = (Raise e, s1)).
  { set (s' := log_line s (LogDebug "SAS: execute")) in *.
    assert (Ha' : active s' = false) by exact Ha.
    assert (Hng' : new_goal (self s') = true) by exact Hng.
    assert (Hn' : next_goal (self s') = Handle n) by exact Hn.
    rewrite (executeLoop_body_start _ s Hnt). fold s'. unfold bind at 1.
    rewrite (executeLoop_select_ready cb s' n Ha' Hng' Hn').
    unfold bind, emit, modify. cbn [fst snd].
    unfold log_line in Hcb. cbn in Hcb. cbn. rewrite Hcb. reflexivity. }
  split; [exact E|]. cbn [executeLoop]. unfold bind. now rewrite E.
Qed.

Lemma X16_execute_callback_exception_witness :
  need_to_terminate (self A_submitted) = false /\
  active A_submitted = false /\
  new_goal (self A_submitted) = true /\
  next_goal (self A_submitted) = Handle "A" /\
  fst (executeLoop (Some failing_execute_cb) [false; false] A_submitted)
    = Raise UserError /\
  status (trackers
            (exec (executeLoop (Some failing_execute_cb) [false; false]) A_submitted)
            "A") = ACTIVE.
Proof.
  assert (Hnt : need_to_terminate (self A_submitted) = false) by reflexivity.
  assert (Ha : active A_submitted = false) by reflexivity.
  assert (Hng : new_goal (self A_submitted) = true) by reflexivity.
  assert (Hn : next_goal (self A_submitted) = Handle "A") by reflexivity.
  split; [exact Hnt|]. split; [exact Ha|]. split; [exact Hng|]. split; [exact Hn|].
  destruct (X16_execute_callback_exception failing_execute_cb A_submitted
              (log_line (exec accept_new_goal
                           (log_line A_submitted (LogDebug "SAS: execute")))
                        (CallExecuteCallback
                           (Some (goal (trackers A_submitted "A")))))
              "A" UserError [false] Hnt Ha Hng Hn eq_refl) as [_ E].
  unfold exec. rewrite E. split; [reflexivity|]. vm_compute. reflexivity.
Defined.
